(** * Icon browser plugin: the controller's message handler

    A shallow embedding of [figma.ui.onmessage] from the plugin's main
    script (the deployed [code.js], with light/dark variant keys) and of
    the older TypeScript source [code.ts], together with the properties
    of identifier resolution, row-wrap placement, error paths and the
    catalog cache.

    Modelling choices.
    - In the handler JavaScript numbers are taken as exact rationals
      ([Q]): sums, comparisons and the halving [width / 2] are exact.  The
      script computes in binary64; [layout64] is the batch placement on
      binary64 numbers, and the properties of the placement that need
      exact sums are stated within the range in which binary64 is exact
      ([exact_range]).
    - In the handler [variant_keys] is a finite map from mode tags to
      identifier strings ([gmap string string]), the object's own
      entries.  [read_variant] and [componentKey_of] are the same reads
      with the members a plain object inherits; they agree with
      [resolveKey] on every tag that names no such member.
    - The host ([figma]) is an explicit state threaded through a small
      state-and-completion monad [Js]; [await] is plain sequencing, as
      messages are handled one at a time, and the client storage applies
      [setAsync] and answers [getAsync] in program order.  How the host
      frames nodes when asked to scroll and zoom is a parameter of the
      host, of which nothing is assumed. *)

From Stdlib Require Import QArith Lqa Floats.
From stdpp Require Import base option list strings gmap pretty.

Local Open Scope string_scope.
Local Open Scope list_scope.
Local Open Scope Q_scope.

(** ** JavaScript values carried by messages *)

(** [msg.payload] is typed [any]: an opaque JSON-like blob. *)
#[local] Unset Elimination Schemes.
Inductive JsValue : Type :=
  | JUndefined
  | JNull
  | JBool (b : bool)
  | JNum (q : Q)
  | JStr (s : string)
  | JArr (items : list JsValue)
  | JObj (fields : list (string * JsValue)).
#[local] Set Elimination Schemes.

(** ToBoolean: [undefined], [null], [false], [0] and the empty string are
    falsy; every array and object (also an empty one) is truthy. *)
Definition truthy (v : JsValue) : bool :=
  match v with
  | JUndefined | JNull => false
  | JBool b => b
  | JNum q => negb (Qeq_bool q 0)
  | JStr s => negb (String.eqb s "")
  | JArr _ | JObj _ => true
  end.

(** [a || b] on values. *)
Definition js_or (a b : JsValue) : JsValue := if truthy a then a else b.

(** A property that may be absent ([undefined]) and otherwise holds a
    string: truthy exactly when present and non-empty. *)
Definition truthy_str (o : option string) : bool :=
  match o with
  | Some s => negb (String.eqb s "")
  | None => false
  end.

(** ** Data model *)

Record IconData : Type := {
  id : string;
  context : string;
  context_key : string;
  icon_name : string;
  icon_key : string;
  size : Z;
  component_key : option string;
  component_id : string;
  component_name : string;
  variant_keys : option (gmap string string)
}.

Record PluginMessage : Type := {
  type : string;
  iconData : option IconData;
  icons : option (list IconData);
  mode : option string;
  payload : JsValue
}.

(** A published component: what [importComponentByKeyAsync] resolves to.
    Instances take their size from it. *)
Record ComponentNode : Type := {
  comp_width : Q;
  comp_height : Q
}.

Record SceneNode : Type := {
  x : Q;
  y : Q;
  width : Q;
  height : Q
}.

Record Vector : Type := { vx : Q; vy : Q }.

Record Notification : Type := {
  message : string;
  error : bool
}.

(** Messages posted back to the UI panel. *)
Record UiMessage : Type := {
  ui_type : string;
  ui_payload : JsValue
}.

Inductive JsError : Type :=
  | TypeError (what : string)
  | ImportRejected (key : string).

(** ** The host

    [library] is the team library as the host sees it: the component a key
    imports, or [None] when the import rejects.  [framing] is how the host
    frames nodes: the centre the viewport gets when asked to scroll and
    zoom to the given nodes, from the page and the centre it has; nothing
    is assumed of it.  Scene nodes live in
    [canvas] and are referred to by their index, so that the handler's
    [instance] and the entries of [instances] and of the selection alias
    the same node. *)
Record Figma : Type := {
  library : string -> option ComponentNode;
  framing : list nat -> list SceneNode -> Vector -> Vector;
  viewport_center : Vector;
  canvas : list SceneNode;
  selection : list nat;
  zoomed_into : list (list nat);
  notifications : list Notification;
  import_calls : list string;
  console_errors : list JsError;
  client_storage : gmap string JsValue;
  ui_messages : list UiMessage;
  closed : bool
}.

Definition with_canvas (c : list SceneNode) (h : Figma) : Figma :=
  {| library := library h; framing := framing h;
     viewport_center := viewport_center h;
     canvas := c; selection := selection h;
     zoomed_into := zoomed_into h; notifications := notifications h;
     import_calls := import_calls h; console_errors := console_errors h;
     client_storage := client_storage h; ui_messages := ui_messages h;
     closed := closed h |}.

Definition with_selection (s : list nat) (h : Figma) : Figma :=
  {| library := library h; framing := framing h;
     viewport_center := viewport_center h;
     canvas := canvas h; selection := s;
     zoomed_into := zoomed_into h; notifications := notifications h;
     import_calls := import_calls h; console_errors := console_errors h;
     client_storage := client_storage h; ui_messages := ui_messages h;
     closed := closed h |}.

Definition with_zoomed_into (z : list (list nat)) (h : Figma) : Figma :=
  {| library := library h; framing := framing h;
     viewport_center := viewport_center h;
     canvas := canvas h; selection := selection h;
     zoomed_into := z; notifications := notifications h;
     import_calls := import_calls h; console_errors := console_errors h;
     client_storage := client_storage h; ui_messages := ui_messages h;
     closed := closed h |}.

Definition with_notifications (n : list Notification) (h : Figma) : Figma :=
  {| library := library h; framing := framing h;
     viewport_center := viewport_center h;
     canvas := canvas h; selection := selection h;
     zoomed_into := zoomed_into h; notifications := n;
     import_calls := import_calls h; console_errors := console_errors h;
     client_storage := client_storage h; ui_messages := ui_messages h;
     closed := closed h |}.

Definition with_import_calls (c : list string) (h : Figma) : Figma :=
  {| library := library h; framing := framing h;
     viewport_center := viewport_center h;
     canvas := canvas h; selection := selection h;
     zoomed_into := zoomed_into h; notifications := notifications h;
     import_calls := c; console_errors := console_errors h;
     client_storage := client_storage h; ui_messages := ui_messages h;
     closed := closed h |}.

Definition with_console_errors (c : list JsError) (h : Figma) : Figma :=
  {| library := library h; framing := framing h;
     viewport_center := viewport_center h;
     canvas := canvas h; selection := selection h;
     zoomed_into := zoomed_into h; notifications := notifications h;
     import_calls := import_calls h; console_errors := c;
     client_storage := client_storage h; ui_messages := ui_messages h;
     closed := closed h |}.

Definition with_client_storage (s : gmap string JsValue) (h : Figma) : Figma :=
  {| library := library h; framing := framing h;
     viewport_center := viewport_center h;
     canvas := canvas h; selection := selection h;
     zoomed_into := zoomed_into h; notifications := notifications h;
     import_calls := import_calls h; console_errors := console_errors h;
     client_storage := s; ui_messages := ui_messages h;
     closed := closed h |}.

Definition with_ui_messages (m : list UiMessage) (h : Figma) : Figma :=
  {| library := library h; framing := framing h;
     viewport_center := viewport_center h;
     canvas := canvas h; selection := selection h;
     zoomed_into := zoomed_into h; notifications := notifications h;
     import_calls := import_calls h; console_errors := console_errors h;
     client_storage := client_storage h; ui_messages := m;
     closed := closed h |}.

Definition with_closed (b : bool) (h : Figma) : Figma :=
  {| library := library h; framing := framing h;
     viewport_center := viewport_center h;
     canvas := canvas h; selection := selection h;
     zoomed_into := zoomed_into h; notifications := notifications h;
     import_calls := import_calls h; console_errors := console_errors h;
     client_storage := client_storage h; ui_messages := ui_messages h;
     closed := b |}.

Definition with_viewport_center (v : Vector) (h : Figma) : Figma :=
  {| library := library h; framing := framing h;
     viewport_center := v;
     canvas := canvas h; selection := selection h;
     zoomed_into := zoomed_into h; notifications := notifications h;
     import_calls := import_calls h; console_errors := console_errors h;
     client_storage := client_storage h; ui_messages := ui_messages h;
     closed := closed h |}.

(** The host after it scrolled and zoomed to [nodes]: the call is
    recorded and the viewport is where the host's framing puts it. *)
Definition scrolled (nodes : list nat) (h : Figma) : Figma :=
  with_viewport_center (framing h nodes (canvas h) (viewport_center h))
    (with_zoomed_into (zoomed_into h ++ [nodes]) h).

(** ** The handler's monad: host state and completions *)

(** How a statement completes: normally with a value, by [return] out of
    the handler, or by a thrown exception. *)
Inductive Completion (A : Type) : Type :=
  | Normal (a : A)
  | Return
  | Throw (e : JsError).
Arguments Normal {A} a.
Arguments Return {A}.
Arguments Throw {A} e.

Definition Js (A : Type) : Type := Figma -> Completion A * Figma.

Definition js_ret {A} (a : A) : Js A := fun h => (Normal a, h).

Definition js_bind {A B} (m : Js A) (k : A -> Js B) : Js B :=
  fun h =>
    match m h with
    | (Normal a, h') => k a h'
    | (Return, h') => (Return, h')
    | (Throw e, h') => (Throw e, h')
    end.

Declare Scope js_scope.
Delimit Scope js_scope with js.
Notation "'let*' v ':=' m 'in' k" := (js_bind m (fun v => k))
  (at level 10, v name, m at level 100, k at level 200) : js_scope.
Notation "m ';;' k" := (js_bind m (fun _ => k))
  (at level 100, k at level 200, right associativity) : js_scope.
Local Open Scope js_scope.

(** [return;] *)
Definition js_return {A} : Js A := fun h => (Return, h).

(** [throw e] *)
Definition js_throw {A} (e : JsError) : Js A := fun h => (Throw e, h).

(** [try { body } catch (error) { handler }] *)
Definition try_catch {A} (body : Js A) (handler : JsError -> Js A) : Js A :=
  fun h =>
    match body h with
    | (Throw e, h') => handler e h'
    | r => r
    end.

(** [if (c) { body }] with no else branch. *)
Definition js_when (c : bool) (body : Js unit) : Js unit :=
  if c then body else js_ret tt.

(** ** Host operations *)

(** [figma.notify(message, { error })] *)
Definition notify (msg : string) (err : bool) : Js unit :=
  fun h =>
    (Normal tt,
     with_notifications (notifications h ++ [{| message := msg; error := err |}]) h).

(** [await figma.importComponentByKeyAsync(key)]: the call is recorded, and
    it throws when the library rejects the key. *)
Definition importComponentByKeyAsync (key : string) : Js ComponentNode :=
  fun h =>
    let h' := with_import_calls (import_calls h ++ [key]) h in
    match library h key with
    | Some component => (Normal component, h')
    | None => (Throw (ImportRejected key), h')
    end.

(** [component.createInstance()]: a new node on the page, sized by the
    component; the result is the reference to it. *)
Definition createInstance (component : ComponentNode) : Js nat :=
  fun h =>
    (Normal (length (canvas h)),
     with_canvas (canvas h ++ [{| x := 0; y := 0;
                                  width := comp_width component;
                                  height := comp_height component |}]) h).

(** Reading a property of the node a reference points to.  A dangling
    reference has no counterpart in the source; it is made a [TypeError]. *)
Definition get_node (instance : nat) : Js SceneNode :=
  fun h =>
    match canvas h !! instance with
    | Some node => (Normal node, h)
    | None => (Throw (TypeError "dangling node"), h)
    end.

(** [instance.x = v] and [instance.y = v] *)
Definition set_x (instance : nat) (v : Q) : Js unit :=
  fun h =>
    (Normal tt,
     with_canvas (alter (fun n => {| x := v; y := y n; width := width n;
                                     height := height n |}) instance (canvas h)) h).

Definition set_y (instance : nat) (v : Q) : Js unit :=
  fun h =>
    (Normal tt,
     with_canvas (alter (fun n => {| x := x n; y := v; width := width n;
                                     height := height n |}) instance (canvas h)) h).

(** [figma.viewport.center] *)
Definition get_viewport_center : Js Vector :=
  fun h => (Normal (viewport_center h), h).

(** [figma.currentPage.selection = nodes] *)
Definition set_selection (nodes : list nat) : Js unit :=
  fun h => (Normal tt, with_selection nodes h).

(** [figma.viewport.scrollAndZoomIntoView(nodes)]: the viewport moves to
    frame the nodes. *)
Definition scrollAndZoomIntoView (nodes : list nat) : Js unit :=
  fun h => (Normal tt, scrolled nodes h).

(** [console.error(..., error)] *)
Definition console_error (e : JsError) : Js unit :=
  fun h => (Normal tt, with_console_errors (console_errors h ++ [e]) h).

(** [figma.clientStorage.getAsync(key)]: [undefined] for a key never set. *)
Definition clientStorage_getAsync (key : string) : Js JsValue :=
  fun h => (Normal (default JUndefined (client_storage h !! key)), h).

(** [figma.clientStorage.setAsync(key, value)] *)
Definition clientStorage_setAsync (key : string) (v : JsValue) : Js unit :=
  fun h => (Normal tt, with_client_storage (<[key := v]> (client_storage h)) h).

(** [figma.ui.postMessage(m)] *)
Definition postMessage (m : UiMessage) : Js unit :=
  fun h => (Normal tt, with_ui_messages (ui_messages h ++ [m]) h).

(** [figma.closePlugin()] *)
Definition closePlugin : Js unit :=
  fun h => (Normal tt, with_closed true h).

(** ** Numbers *)

(** [a > b] *)
Definition Qgtb (a b : Q) : bool := negb (Qle_bool a b).

(** [Math.max(a, b)] *)
Definition Math_max (a b : Q) : Q := if Qle_bool a b then b else a.

(** ** Identifier resolution (code.js) *)

(** [msg.mode || 'A'] *)
Definition mode_or_A (m : option string) : string :=
  if truthy_str m then default "A" m else "A".

(** [iconData.variant_keys && iconData.variant_keys[tag]] as a condition:
    an absent [variant_keys] is falsy, a present one (an object) is truthy
    and the condition is then the looked-up entry. *)
Definition has_variant (iconData : IconData) (tag : string) : bool :=
  match variant_keys iconData with
  | Some keys => truthy_str (keys !! tag)
  | None => false
  end.

(** [iconData.variant_keys[tag]], read after [has_variant] held. *)
Definition variant (iconData : IconData) (tag : string) : option string :=
  match variant_keys iconData with
  | Some keys => keys !! tag
  | None => None
  end.

(** The chain that computes [componentKey]; [None] is the initial [null].
    The same text appears in both insert handlers. *)
Definition resolveKey (iconData : IconData) (mode : string) : option string :=
  if has_variant iconData mode then variant iconData mode
  else if has_variant iconData "A" then variant iconData "A"
  else if truthy_str (component_key iconData) then component_key iconData
  else None.

(** [mode === 'A' ? 'Light' : 'Dark'] *)
Definition mode_label (mode : string) : string :=
  if String.eqb mode "A" then "Light" else "Dark".

(** ** The handler of code.js *)

(** The double-quote character of the import error message. *)
Definition dquote : string := String (Ascii.ascii_of_nat 34) EmptyString.

(** The [insert-icon] branch.  [iconData.variant_keys] is the first
    property read of [iconData]: on a message without [iconData] it throws
    a [TypeError], outside the [try] block. *)
Definition insert_icon (msg : PluginMessage) : Js unit :=
  let mode := mode_or_A (mode msg) in
  match iconData msg with
  | None =>
      js_throw (TypeError "Cannot read properties of undefined (reading 'variant_keys')")
  | Some iconData =>
      let componentKey := resolveKey iconData mode in
      if negb (truthy_str componentKey) then
        notify "Error: No component key provided" true ;;
        js_return
      else
        try_catch
          (let* component := importComponentByKeyAsync (default "" componentKey) in
           let* instance := createInstance component in
           let* viewportCenter := get_viewport_center in
           let* node := get_node instance in
           set_x instance (vx viewportCenter - width node / 2) ;;
           let* node := get_node instance in
           set_y instance (vy viewportCenter - height node / 2) ;;
           set_selection [instance] ;;
           scrollAndZoomIntoView [instance] ;;
           notify ("Inserted: " ++ icon_name iconData ++ " (" ++ pretty (size iconData)
                   ++ "px, " ++ mode_label mode ++ ")") false)
          (fun error =>
             console_error error ;;
             notify ("Error: Could not import " ++ dquote ++ icon_name iconData
                     ++ dquote ++ ". Make sure the library is enabled.") true)
  end.

(** The mutable locals of the [insert-multiple] loop. *)
Record Cursor : Type := {
  currentX : Q;
  currentY : Q;
  maxHeightInRow : Q;
  instances : list nat
}.

Definition spacing : Q := 20.
Definition maxRowWidth : Q := 400.

(** The body of [if (currentX - rowStartX + instance.width > maxRowWidth
    && instances.length > 0)]. *)
Definition wrap_row (rowStartX : Q) (c : Cursor) : Cursor :=
  {| currentX := rowStartX;
     currentY := currentY c + (maxHeightInRow c + spacing);
     maxHeightInRow := 0;
     instances := instances c |}.

(** [for (const iconData of icons) { ... }] *)
Fixpoint for_icons (mode : string) (rowStartX : Q) (icons : list IconData)
    (c : Cursor) : Js Cursor :=
  match icons with
  | [] => js_ret c
  | iconData :: rest =>
      let componentKey := resolveKey iconData mode in
      if negb (truthy_str componentKey) then
        for_icons mode rowStartX rest c
      else
        let* component := importComponentByKeyAsync (default "" componentKey) in
        let* instance := createInstance component in
        let* node := get_node instance in
        let c1 :=
          if Qgtb (currentX c - rowStartX + width node) maxRowWidth
             && (0 <? length (instances c))%nat
          then wrap_row rowStartX c else c in
        set_x instance (currentX c1) ;;
        set_y instance (currentY c1) ;;
        let* node := get_node instance in
        let c2 :=
          {| currentX := currentX c1 + (width node + spacing);
             currentY := currentY c1;
             maxHeightInRow := Math_max (maxHeightInRow c1) (height node);
             instances := instances c1 ++ [instance] |} in
        for_icons mode rowStartX rest c2
  end.

(** The [insert-multiple] branch. *)
Definition insert_multiple (msg : PluginMessage) : Js unit :=
  let mode := mode_or_A (mode msg) in
  match icons msg with
  | None | Some [] =>
      notify "No icons selected" true ;;
      js_return
  | Some icons =>
      try_catch
        (let* viewportCenter := get_viewport_center in
         let rowStartX := vx viewportCenter in
         let* c := for_icons mode rowStartX icons
                     {| currentX := vx viewportCenter;
                        currentY := vy viewportCenter;
                        maxHeightInRow := 0;
                        instances := [] |} in
         set_selection (instances c) ;;
         scrollAndZoomIntoView (instances c) ;;
         notify ("Inserted " ++ pretty (length icons) ++ " icons ("
                 ++ mode_label mode ++ ")") false)
        (fun error =>
           console_error error ;;
           notify "Error importing some icons. Make sure the library is enabled." true)
  end.

(** The [get-cached-data] branch; the [then] callback runs with the value
    the storage answers. *)
Definition get_cached_data : Js unit :=
  let* cached := clientStorage_getAsync "icon-data" in
  postMessage {| ui_type := "cached-data"; ui_payload := js_or cached JNull |}.

(** [figma.ui.onmessage = async (msg) => { ... }] *)
Definition onmessage (msg : PluginMessage) : Js unit :=
  js_when (String.eqb (type msg) "insert-icon") (insert_icon msg) ;;
  js_when (String.eqb (type msg) "insert-multiple") (insert_multiple msg) ;;
  js_when (String.eqb (type msg) "get-cached-data") get_cached_data ;;
  js_when (String.eqb (type msg) "cache-data")
    (clientStorage_setAsync "icon-data" (payload msg)) ;;
  js_when (String.eqb (type msg) "close") closePlugin.

(** How the promise of the async handler settles. *)
Inductive Settled : Type :=
  | Fulfilled
  | Rejected (e : JsError).

(** A [return] or the end of the body fulfils the promise; an exception
    that reaches the top rejects it. *)
Definition settle (r : Completion unit * Figma) : Settled * Figma :=
  match r with
  | (Normal _, h') | (Return, h') => (Fulfilled, h')
  | (Throw e, h') => (Rejected e, h')
  end.

(** One message handled to completion. *)
Definition handle (msg : PluginMessage) (h : Figma) : Settled * Figma :=
  settle (onmessage msg h).

(** ** The handler of code.ts

    The TypeScript source of the same handler, from before variant keys:
    a record has one required [component_key], there is no mode, and the
    single insert guards against a missing [iconData]. *)
Module CodeTs.

Record IconData : Type := {
  id : string;
  context : string;
  context_key : string;
  icon_name : string;
  icon_key : string;
  size : Z;
  component_key : string;
  component_id : string;
  component_name : string
}.

Record PluginMessage : Type := {
  type : string;
  iconData : option IconData;
  icons : option (list IconData);
  payload : JsValue
}.

(** [!iconData || !iconData.component_key] *)
Definition no_component_key (d : option IconData) : bool :=
  match d with
  | None => true
  | Some iconData => negb (truthy_str (Some (component_key iconData)))
  end.

Definition insert_icon (msg : PluginMessage) : Js unit :=
  if no_component_key (iconData msg) then
    notify "Error: No component key provided" true ;;
    js_return
  else
    match iconData msg with
    | None => js_ret tt
    | Some iconData =>
        try_catch
          (let* component := importComponentByKeyAsync (component_key iconData) in
           let* instance := createInstance component in
           let* viewportCenter := get_viewport_center in
           let* node := get_node instance in
           set_x instance (vx viewportCenter - width node / 2) ;;
           let* node := get_node instance in
           set_y instance (vy viewportCenter - height node / 2) ;;
           set_selection [instance] ;;
           scrollAndZoomIntoView [instance] ;;
           notify ("Inserted: " ++ icon_name iconData ++ " ("
                   ++ pretty (size iconData) ++ "px)") false)
          (fun error =>
             console_error error ;;
             notify ("Error: Could not import " ++ dquote ++ icon_name iconData
                     ++ dquote ++ ". Make sure the library is enabled.") true)
    end.

Fixpoint for_icons (rowStartX : Q) (icons : list IconData) (c : Cursor) : Js Cursor :=
  match icons with
  | [] => js_ret c
  | iconData :: rest =>
      let* component := importComponentByKeyAsync (component_key iconData) in
      let* instance := createInstance component in
      let* node := get_node instance in
      let c1 :=
        if Qgtb (currentX c - rowStartX + width node) maxRowWidth
           && (0 <? length (instances c))%nat
        then wrap_row rowStartX c else c in
      set_x instance (currentX c1) ;;
      set_y instance (currentY c1) ;;
      let* node := get_node instance in
      let c2 :=
        {| currentX := currentX c1 + (width node + spacing);
           currentY := currentY c1;
           maxHeightInRow := Math_max (maxHeightInRow c1) (height node);
           instances := instances c1 ++ [instance] |} in
      for_icons rowStartX rest c2
  end.

Definition insert_multiple (msg : PluginMessage) : Js unit :=
  match icons msg with
  | None | Some [] =>
      notify "No icons selected" true ;;
      js_return
  | Some icons =>
      try_catch
        (let* viewportCenter := get_viewport_center in
         let rowStartX := vx viewportCenter in
         let* c := for_icons rowStartX icons
                     {| currentX := vx viewportCenter;
                        currentY := vy viewportCenter;
                        maxHeightInRow := 0;
                        instances := [] |} in
         set_selection (instances c) ;;
         scrollAndZoomIntoView (instances c) ;;
         notify ("Inserted " ++ pretty (length icons) ++ " icons") false)
        (fun error =>
           console_error error ;;
           notify "Error importing some icons. Make sure the library is enabled." true)
  end.

Definition onmessage (msg : PluginMessage) : Js unit :=
  js_when (String.eqb (type msg) "insert-icon") (insert_icon msg) ;;
  js_when (String.eqb (type msg) "insert-multiple") (insert_multiple msg) ;;
  js_when (String.eqb (type msg) "get-cached-data") get_cached_data ;;
  js_when (String.eqb (type msg) "cache-data")
    (clientStorage_setAsync "icon-data" (payload msg)) ;;
  js_when (String.eqb (type msg) "close") closePlugin.

Definition handle (msg : PluginMessage) (h : Figma) : Settled * Figma :=
  settle (onmessage msg h).

End CodeTs.

(** A code.ts record as code.js reads it: the same fields, no
    [variant_keys]. *)
Definition of_ts (r : CodeTs.IconData) : IconData :=
  {| id := CodeTs.id r; context := CodeTs.context r;
     context_key := CodeTs.context_key r; icon_name := CodeTs.icon_name r;
     icon_key := CodeTs.icon_key r; size := CodeTs.size r;
     component_key := Some (CodeTs.component_key r);
     component_id := CodeTs.component_id r;
     component_name := CodeTs.component_name r;
     variant_keys := None |}.

(** ** Identifier resolution as the specification words it *)

(** A property "exists and is non-empty" with value [k]. *)
Definition exists_nonempty (o : option string) (k : string) : Prop :=
  o = Some k /\ k <> "".

Definition usable (o : option string) : Prop := exists k, exists_nonempty o k.

(** The four rules, in strict precedence: each rule may fire only when
    every earlier one does not. *)
Inductive resolution_spec (r : IconData) (m : string) : option string -> Prop :=
  | spec_requested k :
      exists_nonempty (variant r m) k ->
      resolution_spec r m (Some k)
  | spec_light k :
      ~ usable (variant r m) ->
      exists_nonempty (variant r "A") k ->
      resolution_spec r m (Some k)
  | spec_component k :
      ~ usable (variant r m) ->
      ~ usable (variant r "A") ->
      exists_nonempty (component_key r) k ->
      resolution_spec r m (Some k)
  | spec_unresolved :
      ~ usable (variant r m) ->
      ~ usable (variant r "A") ->
      ~ usable (component_key r) ->
      resolution_spec r m None.

(** The same record with another [variant_keys]. *)
Definition with_variant_keys (keys : option (gmap string string)) (r : IconData) : IconData :=
  {| id := id r; context := context r; context_key := context_key r;
     icon_name := icon_name r; icon_key := icon_key r; size := size r;
     component_key := component_key r; component_id := component_id r;
     component_name := component_name r; variant_keys := keys |}.

(** [r.variant_keys[tag] = k], creating [variant_keys] when absent. *)
Definition set_variant (tag k : string) (r : IconData) : IconData :=
  with_variant_keys (Some (<[tag := k]> (default ∅ (variant_keys r)))) r.

(** An [insert-icon] message. *)
Definition insert_icon_msg (r : IconData) (m : option string) : PluginMessage :=
  {| type := "insert-icon"; iconData := Some r; icons := None; mode := m;
     payload := JUndefined |}.

(** An [insert-multiple] message. *)
Definition insert_multiple_msg (rs : list IconData) (m : option string) : PluginMessage :=
  {| type := "insert-multiple"; iconData := None; icons := Some rs; mode := m;
     payload := JUndefined |}.

(** The host after a message, and the last message posted to the UI. *)
Definition after (msg : PluginMessage) (h : Figma) : Figma := (handle msg h).2.

Definition cache_data_msg (p : JsValue) : PluginMessage :=
  {| type := "cache-data"; iconData := None; icons := None; mode := None;
     payload := p |}.

Definition get_cached_data_msg : PluginMessage :=
  {| type := "get-cached-data"; iconData := None; icons := None; mode := None;
     payload := JUndefined |}.

(** What the UI receives for a [get-cached-data] request sent in host
    state [h]: the messages posted while handling it. *)
Definition cached_reply (h : Figma) : list UiMessage :=
  drop (length (ui_messages h)) (ui_messages (after get_cached_data_msg h)).

(** ** Hosts after a request, in closed form *)

(** The host after a successful single insert. *)
Definition inserted_one (r : IconData) (mode k : string) (comp : ComponentNode)
    (h : Figma) : Figma :=
  let instance := length (canvas h) in
  with_notifications
    (notifications h ++
       [{| message := "Inserted: " ++ icon_name r ++ " (" ++ pretty (size r)
                      ++ "px, " ++ mode_label mode ++ ")";
           error := false |}])
    (scrolled [instance]
       (with_selection [instance]
          (with_canvas
             (canvas h ++
                [{| x := vx (viewport_center h) - comp_width comp / 2;
                    y := vy (viewport_center h) - comp_height comp / 2;
                    width := comp_width comp;
                    height := comp_height comp |}])
             (with_import_calls (import_calls h ++ [k]) h)))).

(** The exception of a property read on an absent [iconData]. *)
Definition missing_iconData_error : JsError :=
  TypeError "Cannot read properties of undefined (reading 'variant_keys')".

(** The hosts agree on everything but the wording of notifications. *)
Definition same_page (a b : Figma) : Prop :=
  canvas a = canvas b /\ selection a = selection b
  /\ zoomed_into a = zoomed_into b /\ import_calls a = import_calls b
  /\ console_errors a = console_errors b
  /\ map error (notifications a) = map error (notifications b).

(** How either handler finishes a non-empty batch once its loop has
    ended; [done] is the wording of the success notification. *)
Definition finish_batch (done : string) (r : Completion Cursor * Figma) : Figma :=
  match r with
  | (Normal c, h1) =>
      with_notifications (notifications h1 ++ [{| message := done; error := false |}])
        (scrolled (instances c)
           (with_selection (instances c) h1))
  | (Return, h1) => h1
  | (Throw e, h1) =>
      with_notifications
        (notifications h1 ++
           [{| message := "Error importing some icons. Make sure the library is enabled.";
               error := true |}])
        (with_console_errors (console_errors h1 ++ [e]) h1)
  end.

(** ** The batch loop in closed form

    What one iteration does to the cursor once the import has succeeded,
    and the node it leaves on the page. *)
Definition place (rowStartX : Q) (instance : nat) (comp : ComponentNode)
    (c : Cursor) : SceneNode * Cursor :=
  let c1 :=
    if Qgtb (currentX c - rowStartX + comp_width comp) maxRowWidth
       && (0 <? length (instances c))%nat
    then wrap_row rowStartX c else c in
  ({| x := currentX c1; y := currentY c1;
      width := comp_width comp; height := comp_height comp |},
   {| currentX := currentX c1 + (comp_width comp + spacing);
      currentY := currentY c1;
      maxHeightInRow := Math_max (maxHeightInRow c1) (comp_height comp);
      instances := instances c1 ++ [instance] |}).

(** The nodes placed for a run of imported components, the first of them
    getting reference [first], and the cursor after the last. *)
Fixpoint layout (rowStartX : Q) (first : nat) (comps : list ComponentNode)
    (c : Cursor) : list SceneNode * Cursor :=
  match comps with
  | [] => ([], c)
  | comp :: rest =>
      let p := place rowStartX first comp c in
      let l := layout rowStartX (S first) rest p.2 in
      (p.1 :: l.1, l.2)
  end.

(** The cursor before the first iteration. *)
Definition start_cursor (h : Figma) : Cursor :=
  {| currentX := vx (viewport_center h);
     currentY := vy (viewport_center h);
     maxHeightInRow := 0;
     instances := [] |}.

(** The keys the loop asks the library for when no import fails: those of
    the records that resolve, in request order. *)
Definition resolved_keys (mode : string) (icons : list IconData) : list string :=
  omap (fun r => resolveKey r mode) icons.

(** Every key of [keys] imports, giving [comps] in the same order. *)
Definition imports (h : Figma) (keys : list string) (comps : list ComponentNode) : Prop :=
  Forall2 (fun k comp => library h k = Some comp) keys comps.

(** The host after a batch whose imports all succeeded. *)
Definition inserted_batch (icons : list IconData) (mode : string)
    (comps : list ComponentNode) (h : Figma) : Figma :=
  let l := layout (vx (viewport_center h)) (length (canvas h)) comps (start_cursor h) in
  with_notifications
    (notifications h ++
       [{| message := "Inserted " ++ pretty (length icons) ++ " icons ("
                      ++ mode_label mode ++ ")";
           error := false |}])
    (scrolled (instances l.2)
       (with_selection (instances l.2)
          (with_canvas (canvas h ++ l.1)
             (with_import_calls (import_calls h ++ resolved_keys mode icons) h)))).

(** The host after a batch whose import of [k] was rejected, [comps] having
    been imported before it. *)
Definition aborted_batch (keys : list string) (k : string)
    (comps : list ComponentNode) (h : Figma) : Figma :=
  let l := layout (vx (viewport_center h)) (length (canvas h)) comps (start_cursor h) in
  with_notifications
    (notifications h ++
       [{| message := "Error importing some icons. Make sure the library is enabled.";
           error := true |}])
    (with_console_errors (console_errors h ++ [ImportRejected k])
       (with_canvas (canvas h ++ l.1)
          (with_import_calls (import_calls h ++ keys ++ [k]) h))).


(** The top-left corner of a node. *)
Definition top_left (n : SceneNode) : Q * Q := (x n, y n).

(** ** The invariant of the row-wrap loop *)





(** ** Concrete hosts and records used in examples *)

(** A library in which every key but ["missing"] imports a 150 x 50
    component. *)
Definition sample_library (k : string) : option ComponentNode :=
  if String.eqb k "missing" then None
  else Some {| comp_width := 150; comp_height := 50 |}.

(** A host that frames nodes by centring the viewport on the middle of the
    first of them. *)
Definition sample_framing (nodes : list nat) (page : list SceneNode) (c : Vector) : Vector :=
  match nodes with
  | i :: _ =>
      match page !! i with
      | Some n => {| vx := x n + width n / 2; vy := y n + height n / 2 |}
      | None => c
      end
  | [] => c
  end.

(** A fresh session: empty page, viewport centred on (1000, 1000), nothing
    cached. *)
Definition sample_host : Figma :=
  {| library := sample_library;
     framing := sample_framing;
     viewport_center := {| vx := 1000; vy := 1000 |};
     canvas := []; selection := []; zoomed_into := []; notifications := [];
     import_calls := []; console_errors := []; client_storage := ∅;
     ui_messages := []; closed := false |}.

(** A 16px catalog entry with the given keys. *)
Definition sample_icon (name : string) (key : option string)
    (keys : option (gmap string string)) : IconData :=
  {| id := name; context := "Maps"; context_key := "maps";
     icon_name := name; icon_key := name; size := 16;
     component_key := key; component_id := "1:2"; component_name := name;
     variant_keys := keys |}.

(** ** The specification's statements about batches, as it words them *)

(** Node [n] has its top-left at [(px, py)]. *)
Definition placed_at (n : SceneNode) (p : Q * Q) : Prop :=
  x n == p.1 /\ y n == p.2.

(** The component of the packing example: width 150, height 50. *)
Definition example_component : ComponentNode :=
  {| comp_width := 150; comp_height := 50 |}.

(** The packing example: a batch of [n] records, each importing a
    150 x 50 component, into a fresh page centred on (1000, 1000). *)
Definition packing_example (n : nat) : Figma :=
  after (insert_multiple_msg (replicate n (sample_icon "pin" (Some "k1") None)) None)
    sample_host.

(** The example as the specification computes it: the third object on the
    first row, the fourth one wrapped. *)
Definition packing_example_claim : Prop :=
  Forall2 placed_at (canvas (packing_example 3))
    [(1000, 1000); (1170, 1000); (1340, 1000)]
  /\ Forall2 placed_at (canvas (packing_example 4))
       [(1000, 1000); (1170, 1000); (1340, 1000); (1000, 1070)].

(** The keys of a batch whose import succeeds in host [h]. *)
Definition importable_keys (h : Figma) (mode : string) (rs : list IconData) : list string :=
  filter (fun k => is_Some (library h k)) (resolved_keys mode rs).

(** Per-record catching as the specification words it: the loop goes on
    past a rejected import, so every resolvable record is asked for; the
    rejected records are left out of what is placed and selected; and the
    one notification that follows is not an error. *)
Definition per_record_catch_claim (rs : list IconData) (m : option string)
    (h : Figma) : Prop :=
  let h' := after (insert_multiple_msg rs m) h in
  import_calls h' = import_calls h ++ resolved_keys (mode_or_A m) rs
  /\ length (selection h') = length (importable_keys h (mode_or_A m) rs)
  /\ length (canvas h') = (length (canvas h)
                           + length (importable_keys h (mode_or_A m) rs))%nat
  /\ exists n, notifications h' = notifications h ++ [n] /\ error n = false.

(** A batch of three whose second import is rejected. *)
Definition batch_with_rejected_import : list IconData :=
  [ sample_icon "pin" (Some "k1") None;
    sample_icon "lost" (Some "missing") None;
    sample_icon "flag" (Some "k3") None ].

(** A batch of five of which the second and the fourth resolve to no
    identifier. *)
Definition batch_with_unresolvable : list IconData :=
  [ sample_icon "pin" (Some "k1") None;
    sample_icon "ghost" None None;
    sample_icon "flag" None (Some {[ "A" := "k3" ]});
    sample_icon "blank" None (Some ∅);
    sample_icon "star" (Some "k5") (Some {[ "B" := "k5-dark" ]}) ].

(** ** What a request leaves alone *)

(** The host after a single insert whose import of [k] was rejected. *)
Definition failed_one (r : IconData) (k : string) (h : Figma) : Figma :=
  with_notifications
    (notifications h ++
       [{| message := "Error: Could not import " ++ dquote ++ icon_name r
                      ++ dquote ++ ". Make sure the library is enabled.";
           error := true |}])
    (with_console_errors (console_errors h ++ [ImportRejected k])
       (with_import_calls (import_calls h ++ [k]) h)).

(** The host after an error notification and nothing else. *)
Definition notified_error (text : string) (h : Figma) : Figma :=
  with_notifications (notifications h ++ [{| message := text; error := true |}]) h.

(** From [h] to [h'] nothing changed but the page, the view and the logs:
    the library, the storage, the messages to the UI and the session are
    as they were, and the nodes that were on the page are still there,
    unchanged, before any new one. *)
Definition page_change (h h' : Figma) : Prop :=
  library h' = library h
  /\ client_storage h' = client_storage h
  /\ ui_messages h' = ui_messages h
  /\ closed h' = closed h
  /\ canvas h `prefix_of` canvas h'.

(** The five message types the handler knows. *)
Definition known_types : list string :=
  ["insert-icon"; "insert-multiple"; "get-cached-data"; "cache-data"; "close"].

(** Projections of updated hosts and nodes. *)
Ltac host_simpl :=
  cbn [library framing viewport_center canvas selection zoomed_into notifications
       import_calls console_errors client_storage ui_messages closed
       scrolled with_viewport_center
       with_canvas with_selection with_zoomed_into with_notifications
       with_import_calls with_console_errors with_client_storage
       with_ui_messages with_closed
       x y width height comp_width comp_height vx vy] in *.

(** ** Property reads with inherited members

    [variant_keys] reaches the handler as a plain object, so the read
    [variant_keys[tag]] yields the object's own entry when it has one and
    otherwise, for a tag that names a member of [Object.prototype], that
    inherited member (a function, or the prototype itself): a truthy value
    that is no identifier. *)

(** The members every plain object inherits. *)
Definition Object_prototype_members : list string :=
  [ "constructor"; "__proto__"; "hasOwnProperty"; "isPrototypeOf";
    "propertyIsEnumerable"; "toLocaleString"; "toString"; "valueOf";
    "__defineGetter__"; "__defineSetter__"; "__lookupGetter__";
    "__lookupSetter__" ].

(** What [componentKey] can hold: the initial [null], a string, or an
    inherited member. *)
Inductive KeyValue : Type :=
  | NoKey
  | KeyString (s : string)
  | InheritedMember (name : string).

Definition truthy_key (k : KeyValue) : bool :=
  match k with
  | NoKey => false
  | KeyString s => negb (String.eqb s "")
  | InheritedMember _ => true
  end.

(** A string property that may be absent. *)
Definition key_of_option (o : option string) : KeyValue :=
  match o with
  | Some s => KeyString s
  | None => NoKey
  end.

(** [iconData.variant_keys && iconData.variant_keys[tag]]: falsy without
    [variant_keys], else the read of [tag]. *)
Definition read_variant (iconData : IconData) (tag : string) : KeyValue :=
  match variant_keys iconData with
  | Some keys =>
      match keys !! tag with
      | Some s => KeyString s
      | None =>
          if bool_decide (tag ∈ Object_prototype_members)
          then InheritedMember tag else NoKey
      end
  | None => NoKey
  end.

(** The chain that computes [componentKey], with the reads as the engine
    performs them. *)
Definition componentKey_of (iconData : IconData) (mode : string) : KeyValue :=
  if truthy_key (read_variant iconData mode) then read_variant iconData mode
  else if truthy_key (read_variant iconData "A") then read_variant iconData "A"
  else if truthy_str (component_key iconData) then key_of_option (component_key iconData)
  else NoKey.

(** C10 as the specification states it: a tag that is not a key of
    [variant_keys] resolves as ["A"] does. *)
Definition fallback_claim : Prop :=
  forall (r : IconData) (m : string),
    variant r m = None -> componentKey_of r m = componentKey_of r "A".

(** A record with a light variant only. *)
Definition light_only : IconData :=
  sample_icon "pin" (Some "legacy") (Some {[ "A" := "light" ]}).

(** ** The range in which the arithmetic is exact

    The script's numbers are binary64 values.  Integers of magnitude up to
    2^53 are binary64 values, and sums, differences and comparisons of
    such integers whose results stay in that range are computed exactly,
    so that the rational model and the script agree on them. *)

(** A rational written with denominator one. *)
Definition is_integer (q : Q) : Prop := Qden q = 1%positive.

(** 2^53 *)
Definition two53 : Q := 9007199254740992.

(** The room a run of components takes at most in each direction: their
    widths, or heights, with one spacing for each. *)
Definition total_width (comps : list ComponentNode) : Q :=
  fold_right (fun comp acc => comp_width comp + spacing + acc) 0 comps.

Definition total_height (comps : list ComponentNode) : Q :=
  fold_right (fun comp acc => comp_height comp + spacing + acc) 0 comps.

(** A component with positive integer width and height. *)
Definition integer_size (comp : ComponentNode) : Prop :=
  is_integer (comp_width comp) /\ is_integer (comp_height comp)
  /\ 0 < comp_width comp /\ 0 < comp_height comp.

(** The components the records of a batch import in host [h], in request
    order (a batch cut short by a rejected import uses a beginning of
    them). *)
Definition batch_components (h : Figma) (mode : string) (rs : list IconData)
    : list ComponentNode :=
  omap (fun r => match resolveKey r mode with
                 | Some k => library h k
                 | None => None
                 end) rs.

(** The viewport centre and the components are integers, the sizes are
    positive, and from the centre the components' total extent stays
    within 2^53 in magnitude, to either side. *)
Definition exact_range (center : Vector) (comps : list ComponentNode) : Prop :=
  is_integer (vx center) /\ is_integer (vy center)
  /\ Forall integer_size comps
  /\ vx center + total_width comps <= two53
  /\ total_width comps - vx center <= two53
  /\ vy center + total_height comps <= two53
  /\ total_height comps - vy center <= two53.

(** A node whose corners are integers of magnitude at most 2^53. *)
Definition in_exact_range (a : SceneNode) : Prop :=
  is_integer (x a) /\ is_integer (y a)
  /\ is_integer (width a) /\ is_integer (height a)
  /\ - two53 <= x a /\ x a + width a <= two53
  /\ - two53 <= y a /\ y a + height a <= two53.

(** The cursor of a loop that stays in the exact range while it places
    [comps]. *)
Definition exact_cursor (sx : Q) (c : Cursor) (comps : list ComponentNode) : Prop :=
  is_integer sx /\ is_integer (currentX c) /\ is_integer (currentY c)
  /\ is_integer (maxHeightInRow c)
  /\ 0 <= maxHeightInRow c
  /\ - two53 <= sx /\ sx <= currentX c
  /\ currentX c + total_width comps <= two53
  /\ - two53 <= currentY c
  /\ currentY c + maxHeightInRow c + total_height comps <= two53
  /\ Forall integer_size comps.

(** ** The placement in binary64

    Lines 84 to 93 of the loop once more, on binary64 numbers as the
    script computes them, for the sizes of the instances in the order of
    their creation; [count64] is [instances.length].  Not-a-number sizes
    are left out ([Math.max] is then the larger argument). *)
Record Rect64 : Type := {
  x64 : float;
  y64 : float;
  width64 : float;
  height64 : float
}.

Record Cursor64 : Type := {
  currentX64 : float;
  currentY64 : float;
  maxHeightInRow64 : float;
  count64 : nat
}.

Definition spacing64 : float := 20%float.
Definition maxRowWidth64 : float := 400%float.

(** [Math.max(a, b)] *)
Definition Math_max64 (a b : float) : float :=
  if PrimFloat.ltb a b then b else a.

Definition place64 (rowStartX : float) (size : float * float) (c : Cursor64)
    : Rect64 * Cursor64 :=
  let c1 :=
    if PrimFloat.ltb maxRowWidth64
         (PrimFloat.add (PrimFloat.sub (currentX64 c) rowStartX) size.1)
       && (0 <? count64 c)%nat
    then {| currentX64 := rowStartX;
            currentY64 := PrimFloat.add (currentY64 c)
                            (PrimFloat.add (maxHeightInRow64 c) spacing64);
            maxHeightInRow64 := 0%float;
            count64 := count64 c |}
    else c in
  ({| x64 := currentX64 c1; y64 := currentY64 c1;
      width64 := size.1; height64 := size.2 |},
   {| currentX64 := PrimFloat.add (currentX64 c1) (PrimFloat.add size.1 spacing64);
      currentY64 := currentY64 c1;
      maxHeightInRow64 := Math_max64 (maxHeightInRow64 c1) size.2;
      count64 := S (count64 c1) |}).

Fixpoint layout64 (rowStartX : float) (sizes : list (float * float)) (c : Cursor64)
    : list Rect64 :=
  match sizes with
  | [] => []
  | size :: rest =>
      let p := place64 rowStartX size c in
      p.1 :: layout64 rowStartX rest p.2
  end.

(** The batch placement from viewport centre [(cx, cy)]. *)
Definition batch64 (cx cy : float) (sizes : list (float * float)) : list Rect64 :=
  layout64 cx sizes
    {| currentX64 := cx; currentY64 := cy; maxHeightInRow64 := 0%float;
       count64 := 0 |}.

(** The rational a finite binary64 value stands for. *)
Definition Q_of_float (f : float) : Q :=
  match Prim2SF f with
  | S754_finite s m e => Qred ((if s then -1 else 1) * (Zpos m # 1) * Qpower 2 e)
  | _ => 0
  end.

(** A binary64 rectangle as a node with exact coordinates. *)
Definition exact_node (r : Rect64) : SceneNode :=
  {| x := Q_of_float (x64 r); y := Q_of_float (y64 r);
     width := Q_of_float (width64 r); height := Q_of_float (height64 r) |}.


(** Closes [exact_range] on concrete hosts and batches. *)
Ltac exact_range_tac :=
  unfold exact_range;
  repeat match goal with |- _ /\ _ => split end;
  try reflexivity;
  try (vm_compute; repeat constructor; fail);
  try (vm_compute; discriminate).

(** Goals of the form [page_change h h'] on hosts in closed form. *)
Ltac page_change_tac :=
  unfold page_change, notified_error, failed_one, inserted_one, finish_batch;
  host_simpl; repeat split; try reflexivity; try (now apply prefix_app_r).

(** ** Order and width of what a batch places *)

(** Reading order: [a] is on a row above [b], or on the same row to its
    left. *)
Definition reads_before (a b : SceneNode) : Prop :=
  y a < y b \/ (y a == y b /\ x a < x b).

(** The nodes of a list come in reading order. *)
Definition in_reading_order (l : list SceneNode) : Prop :=
  forall i j a b, (i < j)%nat -> l !! i = Some a -> l !! j = Some b -> reads_before a b.

(** A placed node with respect to the cursor, for the order: it is on a
    row above the current one, or on it and left of the cursor. *)
Definition passed (c : Cursor) (n : SceneNode) : Prop :=
  y n < currentY c \/ (y n == currentY c /\ x n < currentX c).


(** Record [r] resolves to some identifier under [mode]. *)
Definition resolvable (mode : string) (r : IconData) : Prop :=
  is_Some (resolveKey r mode).


(** ** Spacing between consecutive objects *)

(** [b] was placed right after [a]: on the same row, one spacing to the
    right of [a], or at the start [sx] of a new row, at least one spacing
    below the bottom of [a]. *)
Definition follows (sx : Q) (a b : SceneNode) : Prop :=
  (y b = y a /\ x b = x a + (width a + spacing))
  \/ (x b = sx /\ y a + height a + spacing <= y b).

(** Each node of the list follows the one before it. *)
Fixpoint chain (sx : Q) (l : list SceneNode) : Prop :=
  match l with
  | a :: tl =>
      match tl with
      | b :: _ => follows sx a b /\ chain sx tl
      | [] => True
      end
  | [] => True
  end.

(** The cursor stands right after node [a], the last one placed. *)
Definition tracking (c : Cursor) (a : SceneNode) : Prop :=
  currentX c = x a + (width a + spacing)
  /\ currentY c = y a
  /\ height a <= maxHeightInRow c.

(** * Properties *)

(** ** Resolution *)

Lemma truthy_str_spec (o : option string) :
  truthy_str o = true <-> usable o.
Proof.
  unfold usable, exists_nonempty. destruct o as [s|]; simpl.
  - destruct (String.eqb_spec s ""); simpl; split.
    + discriminate.
    + intros (k & Hk & Hne). congruence.
    + intros _. eauto.
    + reflexivity.
  - split; [discriminate | intros (k & Hk & _); discriminate].
Qed.

Lemma truthy_str_false (o : option string) :
  truthy_str o = false <-> ~ usable o.
Proof.
  rewrite <- truthy_str_spec. destruct (truthy_str o); split; congruence.
Qed.

Lemma has_variant_truthy (r : IconData) (tag : string) :
  has_variant r tag = truthy_str (variant r tag).
Proof. unfold has_variant, variant. destruct (variant_keys r); reflexivity. Qed.

Lemma usable_exists_nonempty (o : option string) :
  usable o -> exists k, o = Some k /\ exists_nonempty o k.
Proof. intros (k & Hk). exists k. split; [apply Hk | exact Hk]. Qed.

(** The result of [resolveKey] is never an empty string. *)
Lemma resolveKey_nonempty (r : IconData) (m k : string) :
  resolveKey r m = Some k -> k <> "".
Proof.
  unfold resolveKey. rewrite !has_variant_truthy.
  destruct (truthy_str (variant r m)) eqn:E1.
  { intros H. apply truthy_str_spec in E1 as (k' & Hk & Hne). congruence. }
  destruct (truthy_str (variant r "A")) eqn:E2.
  { intros H. apply truthy_str_spec in E2 as (k' & Hk & Hne). congruence. }
  destruct (truthy_str (component_key r)) eqn:E3.
  { intros H. apply truthy_str_spec in E3 as (k' & Hk & Hne). congruence. }
  discriminate.
Qed.

Lemma resolveKey_truthy (r : IconData) (m : string) :
  truthy_str (resolveKey r m) = true <-> exists k, resolveKey r m = Some k.
Proof.
  split.
  - destruct (resolveKey r m) as [k|]; [eauto | discriminate].
  - intros (k & Hk). rewrite Hk. apply truthy_str_spec. exists k.
    split; [reflexivity | eapply resolveKey_nonempty; eassumption].
Qed.

Lemma resolveKey_meets_spec (r : IconData) (m : string) :
  resolution_spec r m (resolveKey r m).
Proof.
  unfold resolveKey. rewrite !has_variant_truthy.
  destruct (truthy_str (variant r m)) eqn:E1.
  { apply truthy_str_spec, usable_exists_nonempty in E1 as (k & E & Hk).
    rewrite E. now apply spec_requested. }
  apply truthy_str_false in E1.
  destruct (truthy_str (variant r "A")) eqn:E2.
  { apply truthy_str_spec, usable_exists_nonempty in E2 as (k & E & Hk).
    rewrite E. now apply spec_light. }
  apply truthy_str_false in E2.
  destruct (truthy_str (component_key r)) eqn:E3.
  { apply truthy_str_spec, usable_exists_nonempty in E3 as (k & E & Hk).
    rewrite E. now apply spec_component. }
  apply truthy_str_false in E3.
  now apply spec_unresolved.
Qed.

Lemma resolution_spec_functional (r : IconData) (m : string) (o1 o2 : option string) :
  resolution_spec r m o1 -> resolution_spec r m o2 -> o1 = o2.
Proof.
  intros H1 H2; destruct H1; destruct H2;
    repeat match goal with
           | H : exists_nonempty _ _ |- _ => destruct H
           end;
    try congruence;
    exfalso;
    match goal with
    | H : ~ usable ?o, E : ?o = Some ?k', N : ?k' <> "" |- _ =>
        apply H; exists k'; split; assumption
    end.
Qed.


(** ** Dispatch *)

Lemma handle_insert_icon (msg : PluginMessage) (h : Figma) :
  type msg = "insert-icon" -> handle msg h = settle (insert_icon msg h).
Proof.
  intros Ht. unfold handle, onmessage. rewrite Ht. simpl.
  unfold js_bind, js_when, js_ret.
  destruct (insert_icon msg h) as [[[]| |e] h']; reflexivity.
Qed.

Lemma handle_insert_multiple (msg : PluginMessage) (h : Figma) :
  type msg = "insert-multiple" -> handle msg h = settle (insert_multiple msg h).
Proof.
  intros Ht. unfold handle, onmessage. rewrite Ht. simpl.
  unfold js_bind, js_when, js_ret.
  destruct (insert_multiple msg h) as [[[]| |e] h']; reflexivity.
Qed.

Lemma with_canvas_id (h : Figma) : with_canvas (canvas h) h = h.
Proof. destruct h; reflexivity. Qed.

(** ** Single insert *)

Lemma insert_icon_no_key (r : IconData) (m : option string) (h : Figma) :
  resolveKey r (mode_or_A m) = None ->
  handle (insert_icon_msg r m) h =
    (Fulfilled,
     with_notifications
       (notifications h ++ [{| message := "Error: No component key provided";
                               error := true |}]) h).
Proof.
  intros Hnone. rewrite handle_insert_icon by reflexivity.
  unfold insert_icon. simpl. rewrite Hnone. reflexivity.
Qed.


Lemma lookup_new_node (c : list SceneNode) (n : SceneNode) :
  (c ++ [n]) !! length c = Some n.
Proof. now apply list_lookup_middle. Qed.

Lemma alter_new_node (f : SceneNode -> SceneNode) (c : list SceneNode) (n : SceneNode) :
  alter f (length c) (c ++ [n]) = c ++ [f n].
Proof.
  replace (length c) with (length c + 0)%nat by apply Nat.add_0_r.
  now rewrite alter_app_r.
Qed.

Lemma truthy_resolved (r : IconData) (m k : string) :
  resolveKey r m = Some k -> truthy_str (Some k) = true.
Proof. intros H. rewrite <- H. apply resolveKey_truthy. eauto. Qed.





(** The handler sees a record only through its resolved key, its name and
    its size: which of the three rules produced the key leaves no trace. *)
Lemma insert_icon_same_key (r r' : IconData) (m : option string) (h : Figma) :
  resolveKey r (mode_or_A m) = resolveKey r' (mode_or_A m) ->
  icon_name r = icon_name r' ->
  size r = size r' ->
  handle (insert_icon_msg r m) h = handle (insert_icon_msg r' m) h.
Proof.
  intros Hk Hn Hs. rewrite !handle_insert_icon by reflexivity.
  unfold insert_icon, insert_icon_msg. cbn [iconData mode].
  rewrite Hk, Hn, Hs. reflexivity.
Qed.

Lemma variant_set_variant_ne (r : IconData) (tag tag' k : string) :
  tag <> tag' -> variant (set_variant tag k r) tag' = variant r tag'.
Proof.
  intros Hne. unfold variant, set_variant, with_variant_keys. cbn [variant_keys].
  rewrite lookup_insert_ne by exact Hne.
  destruct (variant_keys r); [reflexivity | apply lookup_empty].
Qed.

Lemma variant_set_variant_eq (r : IconData) (tag k : string) :
  variant (set_variant tag k r) tag = Some k.
Proof.
  unfold variant, set_variant, with_variant_keys. cbn [variant_keys].
  apply lookup_insert_eq.
Qed.

Lemma resolveKey_unfold (r : IconData) (m : string) :
  resolveKey r m =
    if truthy_str (variant r m) then variant r m
    else if truthy_str (variant r "A") then variant r "A"
    else if truthy_str (component_key r) then component_key r
    else None.
Proof. unfold resolveKey. now rewrite !has_variant_truthy. Qed.

(** ** Empty requests *)

(** C6 (the code departs from it). An [insert-icon] message without
    [iconData] is not answered with a notification: the first property
    read throws outside the [try] block, the handler's promise rejects and
    nothing is shown to the user.  No host call is made. *)
Theorem insert_icon_missing_iconData_rejects (m : option string) (p : JsValue)
    (ic : option (list IconData)) (h : Figma) :
  handle {| type := "insert-icon"; iconData := None; icons := ic; mode := m;
            payload := p |} h
  = (Rejected missing_iconData_error, h).
Proof. rewrite handle_insert_icon by reflexivity. reflexivity. Qed.

(** An [insert-multiple] request without icons, or with none, is rejected
    with one error notification and nothing else. *)
Lemma insert_multiple_empty (ic : option (list IconData)) (m : option string)
    (d : option IconData) (p : JsValue) (h : Figma) :
  ic = None \/ ic = Some [] ->
  handle {| type := "insert-multiple"; iconData := d; icons := ic; mode := m;
            payload := p |} h
  = (Fulfilled,
     with_notifications
       (notifications h ++ [{| message := "No icons selected"; error := true |}]) h).
Proof.
  intros [-> | ->]; rewrite handle_insert_multiple by reflexivity; reflexivity.
Qed.

(** An [insert-icon] request whose [iconData] is an object with no keys at
    all is rejected with the error notification. *)
Lemma insert_icon_empty_iconData (r : IconData) (m : option string) (h : Figma) :
  variant_keys r = None -> component_key r = None ->
  handle (insert_icon_msg r m) h
  = (Fulfilled,
     with_notifications
       (notifications h ++ [{| message := "Error: No component key provided";
                               error := true |}]) h).
Proof.
  intros Hv Hc. apply insert_icon_no_key.
  unfold resolveKey, has_variant. now rewrite Hv, Hc.
Qed.

(** ** The batch loop *)

Lemma iteration_skip (mode : string) (sx : Q) (r : IconData) (rest : list IconData)
    (c : Cursor) (h : Figma) :
  resolveKey r mode = None ->
  for_icons mode sx (r :: rest) c h = for_icons mode sx rest c h.
Proof. intros Hk. cbn [for_icons]. now rewrite Hk. Qed.

Lemma iteration_rejected (mode : string) (sx : Q) (r : IconData) (rest : list IconData)
    (k : string) (c : Cursor) (h : Figma) :
  resolveKey r mode = Some k ->
  library h k = None ->
  for_icons mode sx (r :: rest) c h
  = (Throw (ImportRejected k), with_import_calls (import_calls h ++ [k]) h).
Proof.
  intros Hk Hlib. cbn [for_icons].
  rewrite Hk, (truthy_resolved _ _ _ Hk). cbn [negb from_option Datatypes.id].
  unfold js_bind at 1. unfold importComponentByKeyAsync. now rewrite Hlib.
Qed.

Lemma iteration_imported (mode : string) (sx : Q) (r : IconData) (rest : list IconData)
    (k : string) (comp : ComponentNode) (c : Cursor) (h : Figma) :
  resolveKey r mode = Some k ->
  library h k = Some comp ->
  for_icons mode sx (r :: rest) c h
  = for_icons mode sx rest (place sx (length (canvas h)) comp c).2
      (with_canvas (canvas h ++ [(place sx (length (canvas h)) comp c).1])
         (with_import_calls (import_calls h ++ [k]) h)).
Proof.
  intros Hk Hlib. cbn [for_icons].
  rewrite Hk, (truthy_resolved _ _ _ Hk). cbn [negb from_option Datatypes.id].
  unfold js_bind, importComponentByKeyAsync. rewrite Hlib.
  unfold createInstance, get_node, set_x. host_simpl.
  rewrite lookup_new_node. host_simpl.
  unfold set_y. host_simpl.
  rewrite !alter_new_node. host_simpl. rewrite lookup_new_node. host_simpl.
  reflexivity.
Qed.

Lemma resolved_keys_cons (mode : string) (r : IconData) (rest : list IconData) :
  resolved_keys mode (r :: rest) =
    match resolveKey r mode with
    | Some k => k :: resolved_keys mode rest
    | None => resolved_keys mode rest
    end.
Proof. reflexivity. Qed.

Lemma host_canvas_imports_ext (h : Figma) (c1 c2 : list SceneNode) (i1 i2 : list string) :
  c1 = c2 -> i1 = i2 ->
  with_canvas c1 (with_import_calls i1 h) = with_canvas c2 (with_import_calls i2 h).
Proof. now intros -> ->. Qed.

Lemma host_canvas_imports_twice (h : Figma) (c1 c2 : list SceneNode) (i1 i2 : list string) :
  with_canvas c2 (with_import_calls i2 (with_canvas c1 (with_import_calls i1 h)))
  = with_canvas c2 (with_import_calls i2 h).
Proof. reflexivity. Qed.

(** The loop when every import succeeds. *)
Lemma for_icons_imported (mode : string) (sx : Q) (icons : list IconData) :
  forall (comps : list ComponentNode) (c : Cursor) (h : Figma),
    imports h (resolved_keys mode icons) comps ->
    for_icons mode sx icons c h
    = (Normal (layout sx (length (canvas h)) comps c).2,
       with_canvas (canvas h ++ (layout sx (length (canvas h)) comps c).1)
         (with_import_calls (import_calls h ++ resolved_keys mode icons) h)).
Proof.
  unfold imports.
  induction icons as [|r rest IH]; intros comps c h Himp.
  - cbn in Himp. inversion Himp; subst. cbn [for_icons layout fst snd resolved_keys omap].
    unfold js_ret. f_equal. destruct h; unfold with_canvas, with_import_calls; cbn.
    now rewrite !app_nil_r.
  - rewrite resolved_keys_cons in *.
    destruct (resolveKey r mode) as [k|] eqn:Hk.
    + inversion Himp as [|k' comp ks comps' Hlib Hrest]; subst.
      rewrite (iteration_imported mode sx r rest k comp c h Hk Hlib).
      match goal with
      | |- for_icons _ _ _ ?c1 ?h1 = _ =>
          assert (Hrest' : Forall2 (fun k comp => library h1 k = Some comp)
                             (resolved_keys mode rest) comps') by exact Hrest;
          pose proof (IH comps' c1 h1 Hrest') as Hloop
      end.
      rewrite Hloop.
      host_simpl.
      rewrite length_app, Nat.add_1_r. cbn [layout fst snd].
      f_equal. rewrite host_canvas_imports_twice. apply host_canvas_imports_ext.
      * now rewrite <- app_assoc.
      * now rewrite <- app_assoc.
    + rewrite (iteration_skip mode sx r rest c h Hk). now apply IH.
Qed.

(** The loop when the import of one record is rejected, every import before
    it having succeeded: it ends there with the exception. *)
Lemma for_icons_rejected (mode : string) (sx : Q) (pre post : list IconData)
    (bad : IconData) (k : string) :
  resolveKey bad mode = Some k ->
  forall (comps : list ComponentNode) (c : Cursor) (h : Figma),
    imports h (resolved_keys mode pre) comps ->
    library h k = None ->
    for_icons mode sx (pre ++ bad :: post) c h
    = (Throw (ImportRejected k),
       with_canvas (canvas h ++ (layout sx (length (canvas h)) comps c).1)
         (with_import_calls (import_calls h ++ resolved_keys mode pre ++ [k]) h)).
Proof.
  intros Hbad. unfold imports.
  induction pre as [|r rest IH]; intros comps c h Himp Hlib.
  - cbn in Himp. inversion Himp; subst. cbn [app].
    rewrite (iteration_rejected mode sx bad post k c h Hbad Hlib).
    cbn [layout fst snd resolved_keys omap app]. f_equal.
    destruct h; unfold with_canvas, with_import_calls; cbn.
    now rewrite !app_nil_r.
  - rewrite resolved_keys_cons in *. cbn [app].
    destruct (resolveKey r mode) as [k0|] eqn:Hk.
    + inversion Himp as [|k' comp ks comps' Hlib0 Hrest]; subst.
      rewrite (iteration_imported mode sx r _ k0 comp c h Hk Hlib0).
      match goal with
      | |- for_icons _ _ _ ?c1 ?h1 = _ =>
          assert (Hrest' : Forall2 (fun k comp => library h1 k = Some comp)
                             (resolved_keys mode rest) comps') by exact Hrest;
          pose proof (IH comps' c1 h1 Hrest' Hlib) as Hloop
      end.
      rewrite Hloop.
      host_simpl.
      rewrite length_app, Nat.add_1_r. cbn [layout fst snd].
      f_equal. rewrite host_canvas_imports_twice. apply host_canvas_imports_ext.
      * now rewrite <- app_assoc.
      * now rewrite <- !app_assoc.
    + rewrite (iteration_skip mode sx r _ c h Hk). now apply IH.
Qed.

Lemma layout_length (sx : Q) (comps : list ComponentNode) :
  forall first c, length (layout sx first comps c).1 = length comps.
Proof.
  induction comps as [|comp rest IH]; intros first c; cbn [layout fst length].
  - reflexivity.
  - now rewrite IH.
Qed.

Lemma place_instances (sx : Q) (n : nat) (comp : ComponentNode) (c : Cursor) :
  instances (place sx n comp c).2 = instances c ++ [n].
Proof.
  unfold place. cbn [snd instances].
  destruct (_ && _); reflexivity.
Qed.

Lemma layout_instances (sx : Q) (comps : list ComponentNode) :
  forall first c,
    instances (layout sx first comps c).2 = instances c ++ seq first (length comps).
Proof.
  induction comps as [|comp rest IH]; intros first c; cbn [layout snd length seq].
  - now rewrite app_nil_r.
  - rewrite IH, place_instances. now rewrite <- app_assoc.
Qed.

(** The [insert-multiple] handler when every import succeeds. *)
Lemma insert_multiple_success (rs : list IconData) (m : option string)
    (comps : list ComponentNode) (h : Figma) :
  rs <> [] ->
  imports h (resolved_keys (mode_or_A m) rs) comps ->
  handle (insert_multiple_msg rs m) h
  = (Fulfilled, inserted_batch rs (mode_or_A m) comps h).
Proof.
  intros Hne Himp. rewrite handle_insert_multiple by reflexivity.
  unfold insert_multiple, insert_multiple_msg. cbn [icons mode].
  destruct rs as [|r rest]; [contradiction |].
  unfold try_catch, js_bind at 1. unfold get_viewport_center.
  unfold js_bind at 1.
  rewrite (for_icons_imported _ _ _ comps _ _ Himp).
  reflexivity.
Qed.

(** The [insert-multiple] handler when an import is rejected. *)
Lemma insert_multiple_rejected (pre post : list IconData) (bad : IconData)
    (m : option string) (k : string) (comps : list ComponentNode) (h : Figma) :
  resolveKey bad (mode_or_A m) = Some k ->
  imports h (resolved_keys (mode_or_A m) pre) comps ->
  library h k = None ->
  handle (insert_multiple_msg (pre ++ bad :: post) m) h
  = (Fulfilled, aborted_batch (resolved_keys (mode_or_A m) pre) k comps h).
Proof.
  intros Hbad Himp Hlib. rewrite handle_insert_multiple by reflexivity.
  unfold insert_multiple, insert_multiple_msg. cbn [icons mode].
  destruct (pre ++ bad :: post) as [|r rest] eqn:E.
  { destruct pre; discriminate. }
  rewrite <- E.
  unfold try_catch, js_bind at 1. unfold get_viewport_center.
  unfold js_bind at 1.
  rewrite (for_icons_rejected _ _ pre post bad k Hbad comps _ _ Himp Hlib).
  reflexivity.
Qed.

(** ** Row-wrap placement: the packing example *)

(** C2 (as stated it fails). With three 150 x 50 objects the third does not
    stay on the first row, and with four the fourth does not land at
    (1000, 1070). *)
Lemma packing_example_claim_fails : ~ packing_example_claim.
Proof.
  intros [H3 _].
  vm_compute in H3.
  inversion H3 as [|? ? ? ? _ H3a]; subst.
  inversion H3a as [|? ? ? ? _ H3b]; subst.
  inversion H3b as [|? ? ? ? [Hx _] _]; subst.
  vm_compute in Hx. discriminate.
Qed.

(** C2 (amended). With spacing 20 and row width 400, 150 x 50 objects
    inserted from the viewport centre (1000, 1000) go to (1000, 1000) and
    (1170, 1000); the third wraps, since 1340 - 1000 + 150 = 490 > 400,
    to (1000, 1070), and a fourth follows it at (1170, 1070). *)
Theorem packing_example_placement (h : Figma) (rs : list IconData)
    (m : option string) (n : nat)
    (Hn : (1 <= n <= 4)%nat)
    (Hcenter : viewport_center h = {| vx := 1000; vy := 1000 |})
    (Himp : imports h (resolved_keys (mode_or_A m) rs) (replicate n example_component)) :
  exists placed,
    canvas (after (insert_multiple_msg rs m) h) = canvas h ++ placed
    /\ map top_left placed
       = take n [(1000, 1000); (1170, 1000); (1000, 1070); (1170, 1070)].
Proof.
  assert (Hne : rs <> []).
  { intros ->. inversion Himp as [E|]. destruct n; [lia | discriminate]. }
  unfold after. rewrite (insert_multiple_success rs m _ h Hne Himp).
  unfold inserted_batch. cbn [snd]. host_simpl.
  eexists. split; [reflexivity |].
  rewrite Hcenter. unfold start_cursor. rewrite Hcenter. host_simpl.
  destruct n as [|[|[|[|[|n]]]]]; try lia; vm_compute; reflexivity.
Qed.

Lemma packing_example_placement_witness :
  map top_left (canvas (packing_example 4))
  = [(1000, 1000); (1170, 1000); (1000, 1070); (1170, 1070)].
Proof.
  assert (Hn : (1 <= 4 <= 4)%nat) by lia.
  assert (Himp : imports sample_host
                   (resolved_keys (mode_or_A None)
                      (replicate 4 (sample_icon "pin" (Some "k1") None)))
                   (replicate 4 example_component)).
  { repeat constructor. }
  destruct (packing_example_placement sample_host
              (replicate 4 (sample_icon "pin" (Some "k1") None)) None 4
              Hn eq_refl Himp) as (placed & Hc & Hp).
  unfold packing_example. rewrite Hc. exact Hp.
Defined.

(** ** Batches with rejected imports and unresolvable records *)

(** C3 (as stated it fails). In a batch of three whose second import is
    rejected, the third record is never asked for, nothing is selected
    and the notification is an error: the failure is not caught per
    record. *)
Lemma per_record_catch_claim_fails :
  ~ per_record_catch_claim batch_with_rejected_import None sample_host.
Proof.
  intros (Hcalls & _). vm_compute in Hcalls. discriminate.
Qed.

(** What the handler does on that batch. *)
Example rejected_import_run :
  let h' := after (insert_multiple_msg batch_with_rejected_import None) sample_host in
  import_calls h' = ["k1"; "missing"]
  /\ map top_left (canvas h') = [(1000, 1000)]
  /\ selection h' = []
  /\ zoomed_into h' = []
  /\ notifications h'
     = [{| message := "Error importing some icons. Make sure the library is enabled.";
           error := true |}].
Proof. vm_compute. repeat split. Qed.

(** C3 (amended). A rejected import is caught by the one [try] around the
    whole loop: the handler does not fail (its promise is fulfilled), the
    loop stops at the rejected record, so no later record is imported, the
    objects placed before it stay on the page, the selection and the view
    are left as they were, the error is logged, and exactly one
    notification, an error, is shown. *)
Theorem rejected_import_aborts_batch (pre post : list IconData) (bad : IconData)
    (m : option string) (k : string) (comps : list ComponentNode) (h : Figma)
    (Hbad : resolveKey bad (mode_or_A m) = Some k)
    (Himp : imports h (resolved_keys (mode_or_A m) pre) comps)
    (Hlib : library h k = None) :
  let h' := after (insert_multiple_msg (pre ++ bad :: post) m) h in
  handle (insert_multiple_msg (pre ++ bad :: post) m) h = (Fulfilled, h')
  /\ import_calls h' = import_calls h ++ resolved_keys (mode_or_A m) pre ++ [k]
  /\ (exists placed, canvas h' = canvas h ++ placed /\ length placed = length comps)
  /\ selection h' = selection h
  /\ zoomed_into h' = zoomed_into h
  /\ console_errors h' = console_errors h ++ [ImportRejected k]
  /\ notifications h'
     = notifications h ++
       [{| message := "Error importing some icons. Make sure the library is enabled.";
           error := true |}].
Proof.
  intros h'. subst h'. unfold after.
  rewrite (insert_multiple_rejected pre post bad m k comps h Hbad Himp Hlib).
  unfold aborted_batch. cbn [snd]. host_simpl.
  repeat split.
  eexists. split; [reflexivity | apply layout_length].
Qed.

Lemma rejected_import_aborts_batch_witness :
  import_calls (after (insert_multiple_msg batch_with_rejected_import None) sample_host)
  = ["k1"; "missing"]
  /\ selection (after (insert_multiple_msg batch_with_rejected_import None) sample_host)
     = [].
Proof.
  assert (Himp : imports sample_host
                   (resolved_keys (mode_or_A None) [sample_icon "pin" (Some "k1") None])
                   [example_component]).
  { repeat constructor. }
  destruct (rejected_import_aborts_batch
              [sample_icon "pin" (Some "k1") None]
              [sample_icon "flag" (Some "k3") None]
              (sample_icon "lost" (Some "missing") None)
              None "missing" [example_component] sample_host
              eq_refl Himp eq_refl)
    as (_ & Hcalls & _ & Hsel & _).
  split; [exact Hcalls | exact Hsel].
Defined.

(** C4 (the code departs from it). On a batch of five of which two are
    unresolvable, three imports are made and three objects are placed and
    selected, but the notification counts the five requested records. *)
Theorem unresolvable_batch_run :
  let h' := after (insert_multiple_msg batch_with_unresolvable None) sample_host in
  import_calls h' = ["k1"; "k3"; "k5"]
  /\ length (canvas h') = 3%nat
  /\ selection h' = [0; 1; 2]%nat
  /\ zoomed_into h' = [[0; 1; 2]%nat]
  /\ notifications h'
     = [{| message := "Inserted 5 icons (Light)"; error := false |}].
Proof. vm_compute. repeat split. Qed.

(** X7. When no import is rejected, the imports are made in request
    order, one for each resolvable record, and as many objects are placed;
    the selection is exactly the new nodes, in that order; while the
    notification reports the number of requested records. *)
Lemma batch_counts (rs : list IconData) (m : option string)
    (comps : list ComponentNode) (h : Figma) :
  rs <> [] ->
  imports h (resolved_keys (mode_or_A m) rs) comps ->
  let h' := after (insert_multiple_msg rs m) h in
  let resolvable := length (resolved_keys (mode_or_A m) rs) in
  import_calls h' = import_calls h ++ resolved_keys (mode_or_A m) rs
  /\ length (canvas h') = (length (canvas h) + resolvable)%nat
  /\ selection h' = seq (length (canvas h)) resolvable
  /\ notifications h'
     = notifications h ++
       [{| message := "Inserted " ++ pretty (length rs) ++ " icons ("
                      ++ mode_label (mode_or_A m) ++ ")";
           error := false |}].
Proof.
  intros Hne Himp h' resolvable. subst h' resolvable. unfold after.
  rewrite (insert_multiple_success rs m comps h Hne Himp).
  unfold inserted_batch. cbn [snd]. host_simpl.
  assert (Hlen : length comps = length (resolved_keys (mode_or_A m) rs)).
  { symmetry. eapply Forall2_length. exact Himp. }
  repeat split.
  - now rewrite length_app, layout_length, Hlen.
  - rewrite layout_instances. unfold start_cursor. cbn [instances app].
    now rewrite Hlen.
Qed.

(** ** Row-wrap placement: no overlap *)





Lemma Math_max_ge_l (a b : Q) : a <= Math_max a b.
Proof.
  unfold Math_max. destruct (Qle_bool a b) eqn:E; [| lra].
  now apply Qle_bool_iff in E.
Qed.

Lemma Math_max_ge_r (a b : Q) : b <= Math_max a b.
Proof.
  unfold Math_max. destruct (Qle_bool a b) eqn:E; [lra |].
  assert (~ a <= b) by (rewrite <- Qle_bool_iff; congruence). lra.
Qed.






(** Nothing in the [insert-multiple] branch but the loop touches the
    page. *)
Lemma insert_multiple_canvas (rs : list IconData) (m : option string) (h : Figma) :
  canvas (after (insert_multiple_msg rs m) h)
  = canvas (for_icons (mode_or_A m) (vx (viewport_center h)) rs (start_cursor h) h).2.
Proof.
  unfold after. rewrite handle_insert_multiple by reflexivity.
  unfold insert_multiple, insert_multiple_msg. cbn [icons mode].
  destruct rs as [|r rest]; [reflexivity |].
  unfold try_catch, js_bind at 1. unfold get_viewport_center.
  unfold js_bind at 1. fold (start_cursor h).
  destruct (for_icons _ _ (r :: rest) _ h) as [[c'| |e] h1]; reflexivity.
Qed.

(** ** The catalog cache *)

Lemma handle_cache_data (p : JsValue) (h : Figma) :
  handle (cache_data_msg p) h
  = (Fulfilled, with_client_storage (<["icon-data" := p]> (client_storage h)) h).
Proof. reflexivity. Qed.

Lemma handle_get_cached_data (h : Figma) :
  handle get_cached_data_msg h
  = (Fulfilled,
     with_ui_messages
       (ui_messages h ++
          [{| ui_type := "cached-data";
              ui_payload := js_or (default JUndefined (client_storage h !! "icon-data"))
                              JNull |}]) h).
Proof. reflexivity. Qed.

Lemma cached_reply_eq (h : Figma) :
  cached_reply h
  = [{| ui_type := "cached-data";
        ui_payload := js_or (default JUndefined (client_storage h !! "icon-data"))
                        JNull |}].
Proof.
  unfold cached_reply, after. rewrite handle_get_cached_data. cbn [snd]. host_simpl.
  now rewrite drop_app_length.
Qed.

(** C5 (as stated it fails). The payload [0], once cached, does not come
    back: the reply carries [null]. *)
Lemma cache_round_trip_fails_on_zero :
  cached_reply (after (cache_data_msg (JNum 0)) sample_host)
  <> [{| ui_type := "cached-data"; ui_payload := JNum 0 |}].
Proof. rewrite cached_reply_eq. vm_compute. discriminate. Qed.

(** C5 (amended). After [cache-data] with payload [P], a [get-cached-data]
    request is answered by one [cached-data] message whose payload is [P]
    itself when [P] is truthy (every array and object is, the empty
    catalog included) and [null] when [P] is falsy; before any write the
    payload is [null], which is not the empty catalog. *)
Theorem cache_round_trip (h : Figma) (P : JsValue) :
  cached_reply (after (cache_data_msg P) h)
  = [{| ui_type := "cached-data"; ui_payload := if truthy P then P else JNull |}]
  /\ (client_storage h !! "icon-data" = None ->
      cached_reply h = [{| ui_type := "cached-data"; ui_payload := JNull |}])
  /\ cached_reply (after (cache_data_msg (JArr [])) h)
     = [{| ui_type := "cached-data"; ui_payload := JArr [] |}]
  /\ JNull <> JArr [].
Proof.
  assert (Hwrite : forall p,
            cached_reply (after (cache_data_msg p) h)
            = [{| ui_type := "cached-data";
                  ui_payload := if truthy p then p else JNull |}]).
  { intros p. rewrite cached_reply_eq. unfold after. rewrite handle_cache_data.
    cbn [snd]. host_simpl. now rewrite lookup_insert_eq. }
  split; [apply Hwrite | split; [| split]].
  - intros Hnone. rewrite cached_reply_eq, Hnone. reflexivity.
  - apply (Hwrite (JArr [])).
  - discriminate.
Qed.

(** ** The TypeScript source *)

(** In code.ts an [insert-icon] message without [iconData] is answered
    with the error notification: the guard tests [iconData] itself before
    reading from it. *)
Lemma codets_insert_icon_missing_iconData (p : JsValue)
    (ic : option (list CodeTs.IconData)) (h : Figma) :
  CodeTs.handle {| CodeTs.type := "insert-icon"; CodeTs.iconData := None;
                   CodeTs.icons := ic; CodeTs.payload := p |} h
  = (Fulfilled,
     with_notifications
       (notifications h ++ [{| message := "Error: No component key provided";
                               error := true |}]) h).
Proof. reflexivity. Qed.

Lemma resolveKey_of_ts (r : CodeTs.IconData) (mode : string) :
  CodeTs.component_key r <> "" ->
  resolveKey (of_ts r) mode = Some (CodeTs.component_key r).
Proof.
  intros Hne. unfold resolveKey, has_variant, of_ts. cbn [variant_keys component_key].
  unfold truthy_str. destruct (String.eqb_spec (CodeTs.component_key r) "");
    [contradiction | reflexivity].
Qed.

Lemma codets_iteration_rejected (sx : Q) (r : CodeTs.IconData)
    (rest : list CodeTs.IconData) (c : Cursor) (h : Figma) :
  library h (CodeTs.component_key r) = None ->
  CodeTs.for_icons sx (r :: rest) c h
  = (Throw (ImportRejected (CodeTs.component_key r)),
     with_import_calls (import_calls h ++ [CodeTs.component_key r]) h).
Proof.
  intros Hlib. cbn [CodeTs.for_icons].
  unfold js_bind at 1. unfold importComponentByKeyAsync. now rewrite Hlib.
Qed.

Lemma codets_iteration_imported (sx : Q) (r : CodeTs.IconData)
    (rest : list CodeTs.IconData) (comp : ComponentNode) (c : Cursor) (h : Figma) :
  library h (CodeTs.component_key r) = Some comp ->
  CodeTs.for_icons sx (r :: rest) c h
  = CodeTs.for_icons sx rest (place sx (length (canvas h)) comp c).2
      (with_canvas (canvas h ++ [(place sx (length (canvas h)) comp c).1])
         (with_import_calls (import_calls h ++ [CodeTs.component_key r]) h)).
Proof.
  intros Hlib. cbn [CodeTs.for_icons].
  unfold js_bind, importComponentByKeyAsync. rewrite Hlib.
  unfold createInstance, get_node, set_x. host_simpl.
  rewrite lookup_new_node. host_simpl.
  unfold set_y. host_simpl.
  rewrite !alter_new_node. host_simpl. rewrite lookup_new_node. host_simpl.
  reflexivity.
Qed.

(** On records whose key is not empty, the loop of code.ts is the loop of
    code.js run on the same records, whatever the mode. *)
Lemma codets_for_icons_agrees (mode : string) (sx : Q) (rs : list CodeTs.IconData) :
  Forall (fun r => CodeTs.component_key r <> "") rs ->
  forall (c : Cursor) (h : Figma),
    CodeTs.for_icons sx rs c h = for_icons mode sx (map of_ts rs) c h.
Proof.
  induction 1 as [|r rest Hr Hrest IH]; intros c h; [reflexivity |].
  cbn [map].
  destruct (library h (CodeTs.component_key r)) as [comp|] eqn:Hlib.
  - rewrite (codets_iteration_imported sx r rest comp c h Hlib).
    rewrite (iteration_imported mode sx (of_ts r) _ _ comp c h
               (resolveKey_of_ts r mode Hr) Hlib).
    apply IH.
  - rewrite (codets_iteration_rejected sx r rest c h Hlib).
    now rewrite (iteration_rejected mode sx (of_ts r) _ _ c h
                   (resolveKey_of_ts r mode Hr) Hlib).
Qed.

Lemma insert_multiple_finish (rs : list IconData) (m : option string) (h : Figma) :
  rs <> [] ->
  after (insert_multiple_msg rs m) h
  = finish_batch ("Inserted " ++ pretty (length rs) ++ " icons ("
                  ++ mode_label (mode_or_A m) ++ ")")
      (for_icons (mode_or_A m) (vx (viewport_center h)) rs (start_cursor h) h).
Proof.
  intros Hne. unfold after. rewrite handle_insert_multiple by reflexivity.
  unfold insert_multiple, insert_multiple_msg. cbn [icons mode].
  destruct rs as [|r rest]; [contradiction |].
  unfold try_catch, js_bind at 1. unfold get_viewport_center.
  unfold js_bind at 1. fold (start_cursor h).
  destruct (for_icons _ _ (r :: rest) _ h) as [[c'| |e] h1]; reflexivity.
Qed.

Lemma codets_insert_multiple_finish (rs : list CodeTs.IconData) (p : JsValue)
    (d : option CodeTs.IconData) (h : Figma) :
  rs <> [] ->
  (CodeTs.handle {| CodeTs.type := "insert-multiple"; CodeTs.iconData := d;
                    CodeTs.icons := Some rs; CodeTs.payload := p |} h).2
  = finish_batch ("Inserted " ++ pretty (length rs) ++ " icons")
      (CodeTs.for_icons (vx (viewport_center h)) rs (start_cursor h) h).
Proof.
  intros Hne.
  assert (E : CodeTs.handle {| CodeTs.type := "insert-multiple";
                CodeTs.iconData := d; CodeTs.icons := Some rs; CodeTs.payload := p |} h
              = settle (CodeTs.insert_multiple {| CodeTs.type := "insert-multiple";
                CodeTs.iconData := d; CodeTs.icons := Some rs; CodeTs.payload := p |} h)).
  { unfold CodeTs.handle, CodeTs.onmessage. cbn [CodeTs.type]. simpl.
    unfold js_bind, js_when, js_ret. unfold CodeTs.insert_multiple. cbn [CodeTs.icons].
    destruct rs as [|r0 rest]; [contradiction |].
    match goal with
    | |- settle (let (_, _) := ?b in _) = settle ?b' =>
        change b' with b; destruct b as [[[]| |e] h']; reflexivity
    end. }
  rewrite E.
  unfold CodeTs.insert_multiple. cbn [CodeTs.icons].
  destruct rs as [|r rest]; [contradiction |].
  unfold try_catch, js_bind at 1. unfold get_viewport_center.
  unfold js_bind at 1. fold (start_cursor h).
  destruct (CodeTs.for_icons _ (r :: rest) _ h) as [[c'| |e] h1]; reflexivity.
Qed.

Lemma finish_batch_same_page (done done' : string) (r : Completion Cursor * Figma) :
  same_page (finish_batch done r) (finish_batch done' r).
Proof.
  destruct r as [[c| |e] h1]; unfold same_page, finish_batch; host_simpl;
    rewrite ?map_app; repeat split; reflexivity.
Qed.

(** A batch handled by code.ts leaves the page as code.js leaves it. *)
Lemma codets_insert_multiple_agrees (rs : list CodeTs.IconData) (m : option string)
    (p : JsValue) (d : option CodeTs.IconData) (h : Figma) :
  rs <> [] ->
  Forall (fun r => CodeTs.component_key r <> "") rs ->
  same_page
    (CodeTs.handle {| CodeTs.type := "insert-multiple"; CodeTs.iconData := d;
                      CodeTs.icons := Some rs; CodeTs.payload := p |} h).2
    (after (insert_multiple_msg (map of_ts rs) m) h).
Proof.
  intros Hne Hrs.
  rewrite (codets_insert_multiple_finish rs p d h Hne).
  rewrite insert_multiple_finish by (destruct rs; [contradiction | discriminate]).
  rewrite (codets_for_icons_agrees (mode_or_A m) _ rs Hrs).
  apply finish_batch_same_page.
Qed.

(** A single insert handled by code.ts leaves the page as code.js leaves
    it: the instance is centred in the same way. *)
Lemma codets_insert_icon_agrees (r : CodeTs.IconData) (m : option string)
    (p : JsValue) (ic : option (list CodeTs.IconData)) (h : Figma) :
  CodeTs.component_key r <> "" ->
  same_page
    (CodeTs.handle {| CodeTs.type := "insert-icon"; CodeTs.iconData := Some r;
                      CodeTs.icons := ic; CodeTs.payload := p |} h).2
    (after (insert_icon_msg (of_ts r) m) h).
Proof.
  intros Hne.
  pose proof (resolveKey_of_ts r (mode_or_A m) Hne) as Hk.
  assert (Hguard : CodeTs.no_component_key (Some r) = false).
  { unfold CodeTs.no_component_key, truthy_str.
    destruct (String.eqb_spec (CodeTs.component_key r) ""); [contradiction | reflexivity]. }
  unfold after. rewrite handle_insert_icon by reflexivity.
  unfold insert_icon, insert_icon_msg. cbn [iconData mode].
  rewrite Hk, (truthy_resolved _ _ _ Hk). cbn [negb from_option Datatypes.id].
  unfold CodeTs.handle, CodeTs.onmessage, CodeTs.insert_icon.
  cbn [CodeTs.type CodeTs.iconData]. rewrite Hguard.
  simpl String.eqb. unfold js_when, js_ret.
  unfold try_catch, js_bind, importComponentByKeyAsync.
  destruct (library h (CodeTs.component_key r)) as [comp|] eqn:Hlib.
  - unfold createInstance, get_viewport_center, get_node, set_x. host_simpl.
    rewrite lookup_new_node. host_simpl. rewrite alter_new_node, lookup_new_node.
    unfold set_y. host_simpl. rewrite alter_new_node.
    unfold set_selection, scrollAndZoomIntoView, notify.
    unfold same_page. cbn [settle snd]. host_simpl.
    rewrite !map_app. repeat split; reflexivity.
  - unfold console_error, notify.
    unfold same_page. cbn [settle snd]. host_simpl.
    repeat split; reflexivity.
Qed.

(** The cache branches are the same text in both files. *)
Lemma codets_cache_agrees (p : JsValue) (h : Figma) :
  CodeTs.handle {| CodeTs.type := "cache-data"; CodeTs.iconData := None;
                   CodeTs.icons := None; CodeTs.payload := p |} h
  = handle (cache_data_msg p) h
  /\ CodeTs.handle {| CodeTs.type := "get-cached-data"; CodeTs.iconData := None;
                      CodeTs.icons := None; CodeTs.payload := JUndefined |} h
     = handle get_cached_data_msg h.
Proof. split; reflexivity. Qed.

(** * Further properties of the handler *)

(** ** Dispatch *)

(** The five tests on [msg.type] run one after the other, yet at most one
    branch is taken. *)
Lemma handle_dispatch (msg : PluginMessage) (h : Figma) :
  handle msg h =
    if String.eqb (type msg) "insert-icon" then settle (insert_icon msg h)
    else if String.eqb (type msg) "insert-multiple" then settle (insert_multiple msg h)
    else if String.eqb (type msg) "get-cached-data" then settle (get_cached_data h)
    else if String.eqb (type msg) "cache-data"
      then settle (clientStorage_setAsync "icon-data" (payload msg) h)
    else if String.eqb (type msg) "close" then settle (closePlugin h)
    else (Fulfilled, h).
Proof.
  destruct (String.eqb_spec (type msg) "insert-icon") as [E|N1].
  { now apply handle_insert_icon. }
  destruct (String.eqb_spec (type msg) "insert-multiple") as [E|N2].
  { now apply handle_insert_multiple. }
  unfold handle, onmessage.
  apply String.eqb_neq in N1, N2. rewrite N1, N2. clear N1 N2.
  generalize (type msg). intros t.
  destruct (String.eqb_spec t "get-cached-data") as [->|N3]; [reflexivity |].
  destruct (String.eqb_spec t "cache-data") as [->|N4]; [reflexivity |].
  destruct (String.eqb_spec t "close") as [->|N5]; reflexivity.
Qed.

(** ** The insert branches on any message *)

(** Every way the [insert-icon] branch can end. *)
Lemma insert_icon_run (msg : PluginMessage) (h : Figma) :
  settle (insert_icon msg h) =
    match iconData msg with
    | None => (Rejected missing_iconData_error, h)
    | Some r =>
        (Fulfilled,
         match resolveKey r (mode_or_A (mode msg)) with
         | None => notified_error "Error: No component key provided" h
         | Some k =>
             match library h k with
             | Some comp => inserted_one r (mode_or_A (mode msg)) k comp h
             | None => failed_one r k h
             end
         end)
    end.
Proof.
  unfold insert_icon. destruct (iconData msg) as [r|]; [| reflexivity].
  destruct (resolveKey r (mode_or_A (mode msg))) as [k|] eqn:Hk; [| reflexivity].
  rewrite (truthy_resolved _ _ _ Hk). cbn [negb from_option Datatypes.id].
  unfold try_catch, js_bind, importComponentByKeyAsync.
  destruct (library h k) as [comp|] eqn:Hlib; [| reflexivity].
  unfold createInstance, get_viewport_center, get_node, set_x. host_simpl.
  rewrite lookup_new_node. host_simpl. rewrite alter_new_node, lookup_new_node.
  unfold set_y. host_simpl. rewrite alter_new_node.
  reflexivity.
Qed.

(** Every way the [insert-multiple] branch can end. *)
Lemma insert_multiple_run (msg : PluginMessage) (h : Figma) :
  settle (insert_multiple msg h) =
    (Fulfilled,
     match icons msg with
     | None | Some [] => notified_error "No icons selected" h
     | Some rs =>
         finish_batch ("Inserted " ++ pretty (length rs) ++ " icons ("
                       ++ mode_label (mode_or_A (mode msg)) ++ ")")
           (for_icons (mode_or_A (mode msg)) (vx (viewport_center h)) rs
              (start_cursor h) h)
     end).
Proof.
  unfold insert_multiple. destruct (icons msg) as [[|r rest]|]; try reflexivity.
  unfold try_catch, js_bind at 1. unfold get_viewport_center.
  unfold js_bind at 1. fold (start_cursor h).
  destruct (for_icons _ _ (r :: rest) _ h) as [[c'| |e] h1]; reflexivity.
Qed.

(** The loop only appends nodes to the page and keys to the import log. *)
Lemma for_icons_frame (mode : string) (sx : Q) (rs : list IconData) :
  forall (c : Cursor) (h : Figma),
    exists placed calls,
      (for_icons mode sx rs c h).2
      = with_canvas (canvas h ++ placed) (with_import_calls (import_calls h ++ calls) h).
Proof.
  induction rs as [|r rest IH]; intros c h.
  - exists [], []. cbn. destruct h; unfold with_canvas, with_import_calls; cbn.
    now rewrite !app_nil_r.
  - destruct (resolveKey r mode) as [k|] eqn:Hk.
    + destruct (library h k) as [comp|] eqn:Hlib.
      * rewrite (iteration_imported mode sx r rest k comp c h Hk Hlib).
        match goal with
        | |- context [for_icons _ _ _ ?c1 ?h1] =>
            destruct (IH c1 h1) as (placed & calls & ->)
        end.
        host_simpl. rewrite host_canvas_imports_twice.
        eexists (_ :: placed), (k :: calls).
        apply host_canvas_imports_ext; now rewrite <- app_assoc.
      * rewrite (iteration_rejected mode sx r rest k c h Hk Hlib).
        exists [], [k]. cbn [snd]. destruct h; unfold with_canvas, with_import_calls; cbn.
        now rewrite app_nil_r.
    + rewrite (iteration_skip mode sx r rest c h Hk). apply IH.
Qed.

(** The loop never completes by [return]. *)
Lemma for_icons_no_return (mode : string) (sx : Q) (rs : list IconData) :
  forall (c : Cursor) (h : Figma), (for_icons mode sx rs c h).1 <> Return.
Proof.
  induction rs as [|r rest IH]; intros c h; [discriminate |].
  destruct (resolveKey r mode) as [k|] eqn:Hk.
  - destruct (library h k) as [comp|] eqn:Hlib.
    + rewrite (iteration_imported mode sx r rest k comp c h Hk Hlib). apply IH.
    + rewrite (iteration_rejected mode sx r rest k c h Hk Hlib). discriminate.
  - rewrite (iteration_skip mode sx r rest c h Hk). apply IH.
Qed.

Lemma page_change_refl (h : Figma) : page_change h h.
Proof. unfold page_change. repeat split; reflexivity. Qed.

Lemma insert_icon_page_change (msg : PluginMessage) (h : Figma) :
  page_change h (settle (insert_icon msg h)).2.
Proof.
  rewrite insert_icon_run.
  destruct (iconData msg) as [r|]; [| page_change_tac].
  cbn [snd]. destruct (resolveKey r _) as [k|]; [| page_change_tac].
  destruct (library h k) as [comp|]; page_change_tac.
Qed.

Lemma insert_multiple_page_change (msg : PluginMessage) (h : Figma) :
  page_change h (settle (insert_multiple msg h)).2.
Proof.
  rewrite insert_multiple_run. cbn [snd].
  destruct (icons msg) as [[|r rest]|]; [page_change_tac | | page_change_tac].
  destruct (for_icons_frame (mode_or_A (mode msg)) (vx (viewport_center h)) (r :: rest)
              (start_cursor h) h) as (placed & calls & Hframe).
  destruct (for_icons _ _ (r :: rest) _ h) as [[c'| |e] h1]; cbn [snd] in Hframe;
    subst h1; page_change_tac.
Qed.


(** ** Unknown messages, and how the promise settles *)

(** X1. A message whose type is none of the five the handler knows is
    ignored: the promise is fulfilled and the host is left exactly as it
    was. *)
Theorem unknown_type_ignored (msg : PluginMessage) (h : Figma)
    (Hunknown : type msg ∉ known_types) :
  handle msg h = (Fulfilled, h).
Proof.
  rewrite handle_dispatch. unfold known_types in Hunknown.
  repeat match goal with
         | |- context [String.eqb (type msg) ?s] =>
             destruct (String.eqb_spec (type msg) s) as [E|_];
             [exfalso; apply Hunknown; rewrite E; set_solver |]
         end.
  reflexivity.
Qed.

Lemma unknown_type_ignored_witness :
  handle {| type := "resize"; iconData := None; icons := None; mode := None;
            payload := JNum 3 |} sample_host
  = (Fulfilled, sample_host).
Proof.
  apply unknown_type_ignored. unfold known_types. cbn [type].
  intros Hin. repeat (apply elem_of_cons in Hin as [Hin | Hin]; [discriminate |]).
  now apply elem_of_nil in Hin.
Defined.

(** X2. The handler's promise is rejected in one case only, an
    [insert-icon] message without [iconData]; on every other message,
    rejected imports included, it is fulfilled. *)
Theorem rejects_only_without_iconData (msg : PluginMessage) (h : Figma) :
  (handle msg h).1 = Fulfilled
  <-> ~ (type msg = "insert-icon" /\ iconData msg = None).
Proof.
  rewrite handle_dispatch.
  destruct (String.eqb_spec (type msg) "insert-icon") as [E|N1].
  { rewrite insert_icon_run. destruct (iconData msg) as [r|]; cbn [fst]; split.
    - intros _ [_ H]. discriminate.
    - reflexivity.
    - discriminate.
    - intros H. exfalso. apply H. now split. }
  split; [intros _ [H _]; contradiction | intros _].
  destruct (String.eqb (type msg) "insert-multiple").
  { now rewrite insert_multiple_run. }
  destruct (String.eqb (type msg) "get-cached-data"); [reflexivity |].
  destruct (String.eqb (type msg) "cache-data"); [reflexivity |].
  destruct (String.eqb (type msg) "close"); reflexivity.
Qed.

(** ** What a message never touches *)

(** X3. Whatever the message, the handler leaves the library as it was
    and never moves, resizes or removes a node that was on the page: new
    nodes only come after the old ones.  The cache changes on
    [cache-data] only, a message goes to the UI on [get-cached-data] only,
    the session closes on [close] only, and none of these three touches
    the page, the selection, the view, the notifications or the import
    log. *)
Theorem handler_frame (msg : PluginMessage) (h : Figma) :
  let h' := after msg h in
  library h' = library h
  /\ canvas h `prefix_of` canvas h'
  /\ (type msg <> "cache-data" -> client_storage h' = client_storage h)
  /\ (type msg <> "get-cached-data" -> ui_messages h' = ui_messages h)
  /\ (type msg <> "close" -> closed h' = closed h)
  /\ (type msg <> "insert-icon" -> type msg <> "insert-multiple" ->
      canvas h' = canvas h /\ selection h' = selection h
      /\ zoomed_into h' = zoomed_into h /\ viewport_center h' = viewport_center h
      /\ notifications h' = notifications h
      /\ import_calls h' = import_calls h /\ console_errors h' = console_errors h).
Proof.
  intros h'. subst h'. unfold after. rewrite handle_dispatch.
  destruct (String.eqb_spec (type msg) "insert-icon") as [E|N1].
  { destruct (insert_icon_page_change msg h) as (Hl & Hs & Hu & Hc & Hp).
    refine (conj Hl (conj Hp (conj _ (conj _ (conj _ _)))));
      intros; try assumption; contradiction. }
  destruct (String.eqb_spec (type msg) "insert-multiple") as [E|N2].
  { destruct (insert_multiple_page_change msg h) as (Hl & Hs & Hu & Hc & Hp).
    refine (conj Hl (conj Hp (conj _ (conj _ (conj _ _)))));
      intros; try assumption; contradiction. }
  assert (Hrest : forall h1 : Figma,
            library h1 = library h -> viewport_center h1 = viewport_center h ->
            canvas h1 = canvas h -> selection h1 = selection h ->
            zoomed_into h1 = zoomed_into h -> notifications h1 = notifications h ->
            import_calls h1 = import_calls h -> console_errors h1 = console_errors h ->
            (type msg <> "cache-data" -> client_storage h1 = client_storage h) ->
            (type msg <> "get-cached-data" -> ui_messages h1 = ui_messages h) ->
            (type msg <> "close" -> closed h1 = closed h) ->
            library h1 = library h
            /\ canvas h `prefix_of` canvas h1
            /\ (type msg <> "cache-data" -> client_storage h1 = client_storage h)
            /\ (type msg <> "get-cached-data" -> ui_messages h1 = ui_messages h)
            /\ (type msg <> "close" -> closed h1 = closed h)
            /\ (type msg <> "insert-icon" -> type msg <> "insert-multiple" ->
                canvas h1 = canvas h /\ selection h1 = selection h
                /\ zoomed_into h1 = zoomed_into h
                /\ viewport_center h1 = viewport_center h
                /\ notifications h1 = notifications h
                /\ import_calls h1 = import_calls h
                /\ console_errors h1 = console_errors h)).
  { intros h1 Hl Hv Hc Hs Hz Hn Hi He Hst Hu Hcl.
    refine (conj Hl (conj _ (conj Hst (conj Hu (conj Hcl _))))).
    - rewrite Hc. reflexivity.
    - intros _ _. repeat split; assumption. }
  destruct (String.eqb_spec (type msg) "get-cached-data") as [E|N3].
  { apply Hrest; try reflexivity; intros H; contradiction. }
  destruct (String.eqb_spec (type msg) "cache-data") as [E|N4].
  { apply Hrest; try reflexivity; intros H; contradiction. }
  destruct (String.eqb_spec (type msg) "close") as [E|N5].
  { apply Hrest; try reflexivity; intros H; contradiction. }
  apply Hrest; reflexivity.
Qed.

(** ** Single insert: the import is rejected *)

(** X4. When the library rejects the key of an [insert-icon] request, the
    exception is caught: the promise is fulfilled, one import call was
    made, no node was created, the selection and the view are untouched,
    the error is logged and one error notification names the icon. *)
Theorem single_insert_import_rejected (r : IconData) (m : option string) (k : string)
    (h : Figma)
    (Hk : resolveKey r (mode_or_A m) = Some k)
    (Hlib : library h k = None) :
  let h' := after (insert_icon_msg r m) h in
  handle (insert_icon_msg r m) h = (Fulfilled, h')
  /\ import_calls h' = import_calls h ++ [k]
  /\ canvas h' = canvas h
  /\ selection h' = selection h
  /\ zoomed_into h' = zoomed_into h
  /\ console_errors h' = console_errors h ++ [ImportRejected k]
  /\ notifications h'
     = notifications h ++
       [{| message := "Error: Could not import " ++ dquote ++ icon_name r ++ dquote
                      ++ ". Make sure the library is enabled.";
           error := true |}].
Proof.
  intros h'. subst h'. unfold after.
  rewrite handle_insert_icon by reflexivity. rewrite insert_icon_run.
  unfold insert_icon_msg. cbn [iconData mode]. rewrite Hk, Hlib.
  unfold failed_one. cbn [snd]. host_simpl. repeat split.
Qed.

Lemma single_insert_import_rejected_witness :
  let h' := after (insert_icon_msg (sample_icon "lost" (Some "missing") None) None)
              sample_host in
  canvas h' = [] /\ import_calls h' = ["missing"]
  /\ map error (notifications h') = [true].
Proof.
  destruct (single_insert_import_rejected
              (sample_icon "lost" (Some "missing") None) None "missing" sample_host
              eq_refl eq_refl) as (_ & Hi & Hc & _ & _ & _ & Hn).
  cbv zeta. rewrite Hi, Hc, Hn. repeat split.
Defined.

(** ** Batches: skipped records *)

(** The loop on a batch is the loop on its resolvable records. *)
Lemma for_icons_filter (mode : string) (sx : Q) (rs : list IconData) :
  forall (c : Cursor) (h : Figma),
    for_icons mode sx rs c h
    = for_icons mode sx (filter (resolvable mode) rs) c h.
Proof.
  induction rs as [|r rest IH]; intros c h; [reflexivity |].
  destruct (resolveKey r mode) as [k|] eqn:Hk.
  - rewrite filter_cons_True by (unfold resolvable; rewrite Hk; eauto).
    destruct (library h k) as [comp|] eqn:Hlib.
    + rewrite !(iteration_imported mode sx r _ k comp c h Hk Hlib). apply IH.
    + now rewrite !(iteration_rejected mode sx r _ k c h Hk Hlib).
  - rewrite filter_cons_False
      by (unfold resolvable; rewrite Hk; intros [? ?]; discriminate).
    rewrite (iteration_skip mode sx r rest c h Hk). apply IH.
Qed.



(** X6. Unresolvable records are skipped without a trace on the page: as
    long as one record of the batch resolves, the page, the selection, the
    view, the import log and the error log after the batch are those after
    the batch of its resolvable records alone; only the wording of the
    notification (its count) can differ. *)
Theorem unresolvable_records_skipped (rs : list IconData) (m : option string)
    (h : Figma)
    (Hsome : filter (resolvable (mode_or_A m)) rs <> []) :
  same_page (after (insert_multiple_msg rs m) h)
    (after (insert_multiple_msg (filter (resolvable (mode_or_A m)) rs) m) h).
Proof.
  assert (Hne : rs <> []) by (intros ->; now apply Hsome).
  rewrite (insert_multiple_finish rs m h Hne).
  rewrite (insert_multiple_finish _ m h Hsome).
  rewrite (for_icons_filter (mode_or_A m) _ rs).
  apply finish_batch_same_page.
Qed.

Lemma unresolvable_records_skipped_witness :
  same_page (after (insert_multiple_msg batch_with_unresolvable None) sample_host)
    (after (insert_multiple_msg
              (filter (resolvable (mode_or_A None)) batch_with_unresolvable) None)
       sample_host).
Proof.
  apply unresolvable_records_skipped. intros H. vm_compute in H. discriminate H.
Defined.

(** ** Batches: order and row width *)

Lemma in_reading_order_snoc (l : list SceneNode) (n : SceneNode) :
  in_reading_order l ->
  Forall (fun r => reads_before r n) l ->
  in_reading_order (l ++ [n]).
Proof.
  intros Hord Hall i j a b Hij Ha Hb.
  rewrite Forall_lookup in Hall.
  apply lookup_snoc_Some in Ha as [[Hi Ha] | [Hi ->]];
    apply lookup_snoc_Some in Hb as [[Hj Hb] | [Hj ->]].
  - exact (Hord i j a b Hij Ha Hb).
  - exact (Hall i a Ha).
  - lia.
  - lia.
Qed.

(** One placement keeps the placed nodes behind the cursor, in reading
    order. *)
Lemma place_reading_order (sx : Q) (first : nat) (comp : ComponentNode) (c : Cursor)
    (placed : list SceneNode) :
  0 < comp_width comp ->
  0 <= maxHeightInRow c ->
  Forall (passed c) placed ->
  in_reading_order placed ->
  0 <= maxHeightInRow (place sx first comp c).2
  /\ Forall (passed (place sx first comp c).2) (placed ++ [(place sx first comp c).1])
  /\ in_reading_order (placed ++ [(place sx first comp c).1]).
Proof.
  intros Hw H0 Hpassed Hord.
  unfold place. cbn [fst snd].
  set (c1 := if _ && _ then wrap_row sx c else c).
  assert (H1 : 0 <= maxHeightInRow c1 /\ Forall (passed c1) placed).
  { subst c1. destruct (_ && _); [| now split].
    split; [cbn; lra |].
    eapply Forall_impl; [exact Hpassed |].
    intros n [Hn | [Hn _]]; left; unfold wrap_row, spacing; cbn [currentY]; lra. }
  destruct H1 as [H01 Hpassed1].
  pose proof (Math_max_ge_l (maxHeightInRow c1) (comp_height comp)) as Hml.
  split; [| split].
  - cbn [maxHeightInRow]. lra.
  - apply Forall_app. split.
    + eapply Forall_impl; [exact Hpassed1 |].
      intros n [Hn | [Hn1 Hn2]]; [left | right]; cbn [currentX currentY].
      * exact Hn.
      * unfold spacing. split; [exact Hn1 | lra].
    + constructor; [| constructor].
      right. cbn [currentX currentY x y]. unfold spacing. split; [reflexivity | lra].
  - apply in_reading_order_snoc; [exact Hord |].
    eapply Forall_impl; [exact Hpassed1 |].
    intros n Hn. exact Hn.
Qed.

Lemma layout_reading_order (sx : Q) (comps : list ComponentNode) :
  forall (first : nat) (c : Cursor) (placed : list SceneNode),
    Forall (fun comp => 0 < comp_width comp) comps ->
    0 <= maxHeightInRow c ->
    Forall (passed c) placed ->
    in_reading_order placed ->
    in_reading_order (placed ++ (layout sx first comps c).1).
Proof.
  induction comps as [|comp rest IH]; intros first c placed Hpos H0 Hpassed Hord.
  - cbn [layout fst]. now rewrite app_nil_r.
  - inversion Hpos as [|? ? Hcomp Hrest]; subst.
    cbn [layout fst]. rewrite cons_middle, app_assoc.
    destruct (place_reading_order sx first comp c placed Hcomp H0 Hpassed Hord)
      as (H0' & Hpassed' & Hord').
    now apply IH.
Qed.





(** ** Batches: longer requests *)

(** The loop on a concatenation runs the loop on the first part and, when
    that ends normally, goes on with the second from where it stopped. *)
Lemma for_icons_app (mode : string) (sx : Q) (rs1 rs2 : list IconData) :
  forall (c : Cursor) (h : Figma),
    for_icons mode sx (rs1 ++ rs2) c h
    = match for_icons mode sx rs1 c h with
      | (Normal c', h') => for_icons mode sx rs2 c' h'
      | r => r
      end.
Proof.
  induction rs1 as [|r rest IH]; intros c h; [reflexivity |].
  cbn [app].
  destruct (resolveKey r mode) as [k|] eqn:Hk.
  - destruct (library h k) as [comp|] eqn:Hlib.
    + rewrite !(iteration_imported mode sx r _ k comp c h Hk Hlib). apply IH.
    + now rewrite !(iteration_rejected mode sx r _ k c h Hk Hlib).
  - rewrite !(iteration_skip mode sx r _ c h Hk). apply IH.
Qed.

(** X10. What a batch places does not depend on the records that follow:
    the page after a batch is the beginning of the page after any longer
    batch that starts with the same records, so appending records never
    moves an object placed for an earlier one. *)
Theorem batch_prefix_stable (rs1 rs2 : list IconData) (m : option string) (h : Figma) :
  canvas (after (insert_multiple_msg rs1 m) h)
    `prefix_of` canvas (after (insert_multiple_msg (rs1 ++ rs2) m) h).
Proof.
  rewrite !insert_multiple_canvas, for_icons_app.
  destruct (for_icons _ _ rs1 _ h) as [[c'| |e] h1]; cbn [snd]; try reflexivity.
  destruct (for_icons_frame (mode_or_A m) (vx (viewport_center h)) rs2 c' h1)
    as (placed & calls & ->).
  host_simpl. now apply prefix_app_r.
Qed.

(** ** The cache: writes and reads together *)

(** X11. The cache holds one blob: of two [cache-data] messages the later
    one decides what [get-cached-data] is answered; writing the same
    payload twice is writing it once; and answering [get-cached-data]
    changes nothing but the messages sent to the UI, so asking again gets
    the same answer. *)
Theorem cache_last_write_wins (h : Figma) (P1 P2 : JsValue) :
  cached_reply (after (cache_data_msg P2) (after (cache_data_msg P1) h))
  = cached_reply (after (cache_data_msg P2) h)
  /\ after (cache_data_msg P2) (after (cache_data_msg P1) h)
     = after (cache_data_msg P2) h
  /\ cached_reply (after get_cached_data_msg h) = cached_reply h
  /\ client_storage (after get_cached_data_msg h) = client_storage h.
Proof.
  assert (Hover : after (cache_data_msg P2) (after (cache_data_msg P1) h)
                  = after (cache_data_msg P2) h).
  { unfold after. rewrite !handle_cache_data. cbn [snd].
    unfold with_client_storage. host_simpl. now rewrite insert_insert_eq. }
  split; [now rewrite Hover | split; [exact Hover | split]].
  - rewrite !cached_reply_eq. unfold after. rewrite handle_get_cached_data.
    cbn [snd]. host_simpl. reflexivity.
  - unfold after. now rewrite handle_get_cached_data.
Qed.

(** ** Resolution: what the result can be *)



(** ** The TypeScript source and the deployed script *)

(** X14. On records that carry a non-empty [component_key], the handler of
    code.ts and the handler of code.js on the same records (read without
    variant keys, in any mode) leave the same page, selection, view,
    import log and error log, and notifications with the same error
    flags, for a single insert and for a batch alike; their cache branches
    do the same. *)
Theorem typescript_source_agrees (rs : list CodeTs.IconData) (m : option string)
    (p : JsValue) (h : Figma)
    (Hkeys : Forall (fun r => CodeTs.component_key r <> "") rs) :
  (rs <> [] ->
   same_page
     (CodeTs.handle {| CodeTs.type := "insert-multiple"; CodeTs.iconData := None;
                       CodeTs.icons := Some rs; CodeTs.payload := p |} h).2
     (after (insert_multiple_msg (map of_ts rs) m) h))
  /\ Forall (fun r =>
       same_page
         (CodeTs.handle {| CodeTs.type := "insert-icon"; CodeTs.iconData := Some r;
                           CodeTs.icons := None; CodeTs.payload := p |} h).2
         (after (insert_icon_msg (of_ts r) m) h)) rs
  /\ CodeTs.handle {| CodeTs.type := "cache-data"; CodeTs.iconData := None;
                      CodeTs.icons := None; CodeTs.payload := p |} h
     = handle (cache_data_msg p) h.
Proof.
  split; [| split].
  - intros Hne. now apply codets_insert_multiple_agrees.
  - eapply Forall_impl; [exact Hkeys |].
    intros r Hr. now apply codets_insert_icon_agrees.
  - reflexivity.
Qed.

Lemma typescript_source_agrees_witness :
  same_page
    (CodeTs.handle
       {| CodeTs.type := "insert-multiple"; CodeTs.iconData := None;
          CodeTs.icons :=
            Some [ {| CodeTs.id := "1"; CodeTs.context := "Maps";
                      CodeTs.context_key := "maps"; CodeTs.icon_name := "pin";
                      CodeTs.icon_key := "pin"; CodeTs.size := 16;
                      CodeTs.component_key := "k1"; CodeTs.component_id := "1:2";
                      CodeTs.component_name := "pin16" |} ];
          CodeTs.payload := JUndefined |} sample_host).2
    (after (insert_multiple_msg
              (map of_ts
                 [ {| CodeTs.id := "1"; CodeTs.context := "Maps";
                      CodeTs.context_key := "maps"; CodeTs.icon_name := "pin";
                      CodeTs.icon_key := "pin"; CodeTs.size := 16;
                      CodeTs.component_key := "k1"; CodeTs.component_id := "1:2";
                      CodeTs.component_name := "pin16" |} ]) (Some "B"))
       sample_host).
Proof.
  refine (proj1 (typescript_source_agrees _ (Some "B") JUndefined sample_host _) _).
  - repeat constructor. intros H. discriminate H.
  - intros H. discriminate H.
Defined.

(** ** Batches: counts and order of the calls *)

Lemma batch_counts_witness :
  let h' := after (insert_multiple_msg batch_with_unresolvable (Some "B")) sample_host in
  import_calls h' = ["k1"; "k3"; "k5-dark"]
  /\ selection h' = [0; 1; 2]%nat.
Proof.
  assert (Hne : batch_with_unresolvable <> []) by (intros H; discriminate H).
  assert (Himp : imports sample_host
                   (resolved_keys (mode_or_A (Some "B")) batch_with_unresolvable)
                   (replicate 3 example_component)).
  { vm_compute. repeat constructor. }
  destruct (batch_counts batch_with_unresolvable (Some "B") _ sample_host Hne Himp)
    as (Hi & _ & Hs & _).
  cbv zeta. rewrite Hi, Hs. vm_compute. split; reflexivity.
Defined.

(** ** Batches: spacing *)

Lemma place_tracking (sx : Q) (n : nat) (comp : ComponentNode) (c : Cursor) :
  tracking (place sx n comp c).2 (place sx n comp c).1.
Proof.
  unfold tracking, place. cbn [fst snd currentX currentY maxHeightInRow x y width height].
  repeat split. apply Math_max_ge_r.
Qed.

Lemma place_follows (sx : Q) (n : nat) (comp : ComponentNode) (c : Cursor)
    (a : SceneNode) :
  tracking c a -> follows sx a (place sx n comp c).1.
Proof.
  intros (Hx & Hy & Hh). unfold follows, place. cbn [fst x y].
  destruct (_ && _).
  - right. unfold wrap_row. cbn [currentX currentY]. split; [reflexivity |].
    rewrite Hy. unfold spacing in *. lra.
  - left. now split.
Qed.

Lemma layout_chain (sx : Q) (comps : list ComponentNode) :
  forall (first : nat) (c : Cursor) (a : SceneNode),
    tracking c a -> chain sx (a :: (layout sx first comps c).1).
Proof.
  induction comps as [|comp rest IH]; intros first c a Ha; cbn [layout fst].
  - exact I.
  - split; [now apply place_follows |].
    apply IH. apply place_tracking.
Qed.

Lemma chain_lookup (sx : Q) (l : list SceneNode) :
  chain sx l ->
  forall i a b, l !! i = Some a -> l !! S i = Some b -> follows sx a b.
Proof.
  induction l as [|a0 tl IH]; intros Hc i a b Ha Hb.
  - rewrite lookup_nil in Ha. discriminate.
  - destruct tl as [|b0 tl'].
    + destruct i as [|i]; cbn in Hb; [discriminate |].
      destruct i; discriminate.
    + destruct Hc as [Hf Hc]. destruct i as [|i].
      * cbn in Ha, Hb. injection Ha as <-. injection Hb as <-. exact Hf.
      * apply (IH Hc i a b); [exact Ha | exact Hb].
Qed.

(** ** Single insert: the label of a fallback *)



(** * Binary64 and the exact range *)

(** ** Integers stay integers *)

Lemma is_integer_plus (a b : Q) : is_integer a -> is_integer b -> is_integer (a + b).
Proof.
  unfold is_integer. intros Ha Hb. unfold Qplus. cbn [Qden]. now rewrite Ha, Hb.
Qed.

Lemma is_integer_Math_max (a b : Q) :
  is_integer a -> is_integer b -> is_integer (Math_max a b).
Proof. intros Ha Hb. unfold Math_max. now destruct (Qle_bool a b). Qed.

Lemma Math_max_le_sum (a b : Q) : 0 <= a -> 0 <= b -> Math_max a b <= a + b.
Proof. intros Ha Hb. unfold Math_max. destruct (Qle_bool a b); lra. Qed.

Lemma total_width_nonneg (comps : list ComponentNode) :
  Forall integer_size comps -> 0 <= total_width comps.
Proof.
  induction 1 as [|comp rest (_ & _ & Hw & _) _ IH]; cbn [total_width fold_right].
  - lra.
  - fold (total_width rest). unfold spacing. lra.
Qed.

Lemma total_height_nonneg (comps : list ComponentNode) :
  Forall integer_size comps -> 0 <= total_height comps.
Proof.
  induction 1 as [|comp rest (_ & _ & _ & Hh) _ IH]; cbn [total_height fold_right].
  - lra.
  - fold (total_height rest). unfold spacing. lra.
Qed.

Lemma total_width_app (l1 l2 : list ComponentNode) :
  total_width (l1 ++ l2) == total_width l1 + total_width l2.
Proof.
  induction l1 as [|comp rest IH]; cbn [app total_width fold_right].
  - fold (total_width l2). lra.
  - fold (total_width (rest ++ l2)). fold (total_width rest). rewrite IH. lra.
Qed.

Lemma total_height_app (l1 l2 : list ComponentNode) :
  total_height (l1 ++ l2) == total_height l1 + total_height l2.
Proof.
  induction l1 as [|comp rest IH]; cbn [app total_height fold_right].
  - fold (total_height l2). lra.
  - fold (total_height (rest ++ l2)). fold (total_height rest). rewrite IH. lra.
Qed.

(** A beginning of components in the exact range is in the exact range. *)
Lemma exact_range_prefix (center : Vector) (comps comps' : list ComponentNode) :
  comps' `prefix_of` comps -> exact_range center comps -> exact_range center comps'.
Proof.
  intros [tl ->] (Hx & Hy & Hall & Hx1 & Hx2 & Hy1 & Hy2).
  apply Forall_app in Hall as [Hall Htl].
  pose proof (total_width_nonneg tl Htl) as Hwt.
  pose proof (total_height_nonneg tl Htl) as Hht.
  rewrite total_width_app in Hx1, Hx2. rewrite total_height_app in Hy1, Hy2.
  unfold exact_range. repeat split; try assumption; lra.
Qed.

(** ** The loop stays in the exact range *)

Lemma start_exact_cursor (h : Figma) (comps : list ComponentNode) :
  exact_range (viewport_center h) comps ->
  exact_cursor (vx (viewport_center h)) (start_cursor h) comps.
Proof.
  intros (Hx & Hy & Hall & Hx1 & Hx2 & Hy1 & Hy2).
  pose proof (total_width_nonneg comps Hall) as Hwt.
  pose proof (total_height_nonneg comps Hall) as Hht.
  unfold exact_cursor, start_cursor. cbn [currentX currentY maxHeightInRow].
  repeat split; try assumption; try reflexivity; lra.
Qed.

Lemma place_exact (sx : Q) (first : nat) (comp : ComponentNode)
    (rest : list ComponentNode) (c : Cursor) :
  exact_cursor sx c (comp :: rest) ->
  in_exact_range (place sx first comp c).1
  /\ exact_cursor sx (place sx first comp c).2 rest.
Proof.
  intros (Isx & Ix & Iy & Im & H0 & Hsx & Hle & Hx & Hy0 & Hy & Hall).
  inversion Hall as [|? ? (Iw & Ih & Hw & Hh) Hrest]; subst.
  pose proof (total_width_nonneg rest Hrest) as Hwt.
  pose proof (total_height_nonneg rest Hrest) as Hht.
  cbn [total_width total_height fold_right] in Hx, Hy.
  fold (total_width rest) in Hx. fold (total_height rest) in Hy.
  assert (Is : is_integer spacing) by reflexivity.
  unfold place. cbn [fst snd].
  set (c1 := if _ && _ then wrap_row sx c else c).
  assert (H1 : is_integer (currentX c1) /\ is_integer (currentY c1)
               /\ is_integer (maxHeightInRow c1) /\ 0 <= maxHeightInRow c1
               /\ sx <= currentX c1
               /\ currentX c1 + (comp_width comp + spacing + total_width rest) <= two53
               /\ - two53 <= currentY c1
               /\ currentY c1 + Math_max (maxHeightInRow c1) (comp_height comp)
                  + total_height rest <= two53).
  { subst c1. destruct (_ && _).
    - unfold wrap_row. cbn [currentX currentY maxHeightInRow].
      assert (Hm0 : Math_max 0 (comp_height comp) <= 0 + comp_height comp)
        by (apply Math_max_le_sum; lra).
      repeat split; try assumption; try reflexivity;
        try (repeat apply is_integer_plus; assumption);
        unfold spacing in *; lra.
    - pose proof (Math_max_le_sum (maxHeightInRow c) (comp_height comp) H0) as Hms.
      repeat split; try assumption; unfold spacing in *; lra. }
  destruct H1 as (Ix1 & Iy1 & Im1 & H01 & Hle1 & Hx1 & Hy01 & Hy1).
  pose proof (Math_max_ge_l (maxHeightInRow c1) (comp_height comp)) as Hml.
  pose proof (Math_max_ge_r (maxHeightInRow c1) (comp_height comp)) as Hmr.
  split.
  - unfold in_exact_range. cbn [x y width height].
    repeat split; try assumption; unfold spacing in *; lra.
  - unfold exact_cursor. cbn [currentX currentY maxHeightInRow].
    repeat split; try assumption;
      try (repeat apply is_integer_plus; assumption);
      try (apply is_integer_Math_max; assumption);
      unfold spacing in *; lra.
Qed.

Lemma layout_exact (sx : Q) (comps : list ComponentNode) :
  forall (first : nat) (c : Cursor),
    exact_cursor sx c comps ->
    Forall in_exact_range (layout sx first comps c).1.
Proof.
  induction comps as [|comp rest IH]; intros first c Hc; cbn [layout fst].
  - constructor.
  - destruct (place_exact sx first comp rest c Hc) as [Hnode Hc'].
    constructor; [exact Hnode | now apply IH].
Qed.

(** What the loop leaves on the page is the layout of a beginning of the
    components its records import. *)
Lemma for_icons_layout_prefix (mode : string) (sx : Q) (rs : list IconData) :
  forall (c : Cursor) (h : Figma),
    exists comps,
      comps `prefix_of` batch_components h mode rs
      /\ canvas (for_icons mode sx rs c h).2
         = canvas h ++ (layout sx (length (canvas h)) comps c).1.
Proof.
  induction rs as [|r rest IH]; intros c h.
  - exists []. split; [reflexivity |]. cbn. now rewrite app_nil_r.
  - unfold batch_components. cbn [omap list_omap].
    destruct (resolveKey r mode) as [k|] eqn:Hk.
    + destruct (library h k) as [comp|] eqn:Hlib.
      * rewrite (iteration_imported mode sx r rest k comp c h Hk Hlib).
        match goal with
        | |- context [for_icons _ _ _ ?c1 ?h1] =>
            destruct (IH c1 h1) as (comps & Hpre & Hcanvas)
        end.
        exists (comp :: comps). split.
        { apply prefix_cons. exact Hpre. }
        rewrite Hcanvas. host_simpl.
        rewrite length_app, Nat.add_1_r. cbn [layout fst].
        now rewrite <- app_assoc.
      * rewrite (iteration_rejected mode sx r rest k c h Hk Hlib).
        exists []. split; [apply prefix_nil |]. cbn. now rewrite app_nil_r.
    + rewrite (iteration_skip mode sx r rest c h Hk). apply IH.
Qed.


(** What a batch in the exact range places: nodes in the exact range,
    laid out from components of positive integer size. *)
Lemma batch_in_exact_range (rs : list IconData) (m : option string) (h : Figma) :
  exact_range (viewport_center h) (batch_components h (mode_or_A m) rs) ->
  exists comps,
    Forall integer_size comps
    /\ canvas (after (insert_multiple_msg rs m) h)
       = canvas h ++ (layout (vx (viewport_center h)) (length (canvas h)) comps
                        (start_cursor h)).1
    /\ Forall in_exact_range
         (layout (vx (viewport_center h)) (length (canvas h)) comps (start_cursor h)).1.
Proof.
  intros Hexact. rewrite insert_multiple_canvas.
  destruct (for_icons_layout_prefix (mode_or_A m) (vx (viewport_center h)) rs
              (start_cursor h) h) as (comps & Hpre & Hcanvas).
  pose proof (exact_range_prefix _ _ _ Hpre Hexact) as Hexact'.
  exists comps. split; [apply Hexact' | split; [exact Hcanvas |]].
  apply layout_exact. now apply start_exact_cursor.
Qed.

(** ** Row-wrap placement within the exact range *)

(** The script's own arithmetic on the packing example gives what the
    rational model gives. *)
Example packing_example_in_binary64 :
  map exact_node (batch64 1000 1000 (replicate 4 (150%float, 50%float)))
  = canvas (packing_example 4).
Proof. vm_compute. reflexivity. Qed.

(** Far from the origin the cursor's advance is absorbed: from the centre
    (1e18, 0) the second 1 x 1 object lands on the first. *)
Example absorbed_advance :
  map exact_node (batch64 1e18 0 [(1%float, 1%float); (1%float, 1%float)])
  = [ {| x := 1000000000000000000; y := 0; width := 1; height := 1 |};
      {| x := 1000000000000000000; y := 0; width := 1; height := 1 |} ].
Proof. vm_compute. reflexivity. Qed.



Lemma packing_example_exact_range :
  exact_range (viewport_center sample_host)
    (batch_components sample_host (mode_or_A None)
       (replicate 4 (sample_icon "pin" (Some "k1") None))).
Proof. exact_range_tac. Qed.


(** X8. Within the exact range (integer centre and positive integer sizes,
    total extent within 2^53), the objects of a batch are placed in
    reading order: each one is on the same row as an earlier one and to
    its right, or on a lower row. *)
Theorem batch_in_reading_order (rs : list IconData) (m : option string) (h : Figma)
    (Hexact : exact_range (viewport_center h) (batch_components h (mode_or_A m) rs)) :
  exists placed,
    canvas (after (insert_multiple_msg rs m) h) = canvas h ++ placed
    /\ Forall in_exact_range placed
    /\ forall i j a b,
         (i < j)%nat -> placed !! i = Some a -> placed !! j = Some b ->
         y a < y b \/ (y a == y b /\ x a < x b).
Proof.
  destruct (batch_in_exact_range rs m h Hexact) as (comps & Hcomps & Hcanvas & Hrange).
  eexists. split; [exact Hcanvas | split; [exact Hrange |]].
  apply (layout_reading_order _ comps _ (start_cursor h) []).
  - eapply Forall_impl; [exact Hcomps |]. intros comp (_ & _ & Hw & _). exact Hw.
  - cbn. lra.
  - constructor.
  - intros i j a b _ Ha. rewrite lookup_nil in Ha. discriminate.
Qed.

Lemma batch_in_reading_order_witness :
  exists placed,
    canvas (packing_example 4) = placed
    /\ Forall in_exact_range placed
    /\ forall i j a b,
         (i < j)%nat -> placed !! i = Some a -> placed !! j = Some b ->
         y a < y b \/ (y a == y b /\ x a < x b).
Proof.
  exact (batch_in_reading_order
           (replicate 4 (sample_icon "pin" (Some "k1") None)) None sample_host
           packing_example_exact_range).
Defined.

(** X16. Within the exact range (integer centre and positive integer
    sizes, total extent within 2^53), each object of a batch is placed
    either on the row of the object before it, exactly one spacing (20) to
    the right of it, or at the start of a new row, at the x of the
    viewport centre and at least one spacing below the bottom of the
    object before it. *)
Theorem batch_spacing (rs : list IconData) (m : option string) (h : Figma)
    (Hexact : exact_range (viewport_center h) (batch_components h (mode_or_A m) rs)) :
  exists placed,
    canvas (after (insert_multiple_msg rs m) h) = canvas h ++ placed
    /\ Forall in_exact_range placed
    /\ forall i a b,
         placed !! i = Some a -> placed !! S i = Some b ->
         (y b = y a /\ x b = x a + (width a + 20))
         \/ (x b = vx (viewport_center h) /\ y a + height a + 20 <= y b).
Proof.
  destruct (batch_in_exact_range rs m h Hexact) as (comps & Hcomps & Hcanvas & Hrange).
  eexists. split; [exact Hcanvas | split; [exact Hrange |]].
  apply (chain_lookup (vx (viewport_center h))).
  destruct comps as [|comp rest]; [exact I |].
  cbn [layout fst]. apply layout_chain, place_tracking.
Qed.

Lemma batch_spacing_witness :
  exists placed,
    canvas (packing_example 4) = placed
    /\ Forall in_exact_range placed
    /\ forall i a b,
         placed !! i = Some a -> placed !! S i = Some b ->
         (y b = y a /\ x b = x a + (width a + 20))
         \/ (x b = vx (viewport_center sample_host) /\ y a + height a + 20 <= y b).
Proof.
  exact (batch_spacing
           (replicate 4 (sample_icon "pin" (Some "k1") None)) None sample_host
           packing_example_exact_range).
Defined.

(** * Tags that name inherited members *)

Lemma read_variant_own (r : IconData) (tag : string) :
  tag ∉ Object_prototype_members ->
  read_variant r tag = key_of_option (variant r tag).
Proof.
  intros Hown. unfold read_variant, variant.
  destruct (variant_keys r) as [keys|]; [| reflexivity].
  destruct (keys !! tag); [reflexivity |].
  now rewrite bool_decide_eq_false_2.
Qed.

Lemma light_not_inherited : "A" ∉ Object_prototype_members.
Proof.
  unfold Object_prototype_members. intros Hin.
  repeat (apply elem_of_cons in Hin as [Hin | Hin]; [discriminate |]).
  now apply elem_of_nil in Hin.
Qed.

Lemma truthy_key_of_option (o : option string) :
  truthy_key (key_of_option o) = truthy_str o.
Proof. destruct o; reflexivity. Qed.

(** On a tag that names no inherited member the chain computes what
    [resolveKey] computes. *)
Lemma componentKey_of_own (r : IconData) (mode : string) :
  mode ∉ Object_prototype_members ->
  componentKey_of r mode = key_of_option (resolveKey r mode).
Proof.
  intros Hown. unfold componentKey_of.
  rewrite (read_variant_own r mode Hown), (read_variant_own r "A" light_not_inherited).
  rewrite !truthy_key_of_option, resolveKey_unfold.
  destruct (truthy_str (variant r mode)); [reflexivity |].
  destruct (truthy_str (variant r "A")); [reflexivity |].
  destruct (truthy_str (component_key r)); reflexivity.
Qed.

(** C10 (as stated it fails). The tag ["constructor"] is no key of the
    [variant_keys] of a light-only record, yet requesting it does not
    resolve to the light variant: the read yields the inherited member,
    which is truthy, and the chain stops there. *)
Lemma fallback_claim_fails : ~ fallback_claim.
Proof.
  intros H. specialize (H light_only "constructor" ltac:(vm_compute; reflexivity)).
  vm_compute in H. discriminate H.
Qed.

(** What the chain computes on that request. *)
Example constructor_is_taken :
  componentKey_of light_only "constructor" = InheritedMember "constructor"
  /\ componentKey_of light_only "A" = KeyString "light"
  /\ componentKey_of light_only "C" = KeyString "light".
Proof. vm_compute. repeat split. Qed.

(** C10 (amended). When the requested tag [m] is not a key of
    [variant_keys] and names no member inherited from [Object.prototype]
    (so ["B"] on a light-only record, or a third tag such as ["C"]),
    resolution gives what requesting ["A"] gives: [variant_keys.A] when it
    is usable; the entry under ["B"] plays no part; and the handler behaves
    exactly as it does on a record that holds the resolved identifier under
    [m] itself, so nothing signals that a fallback took place. *)
Theorem fallback_to_light (r : IconData) (m : string)
    (Hm : variant r m = None)
    (Hown : m ∉ Object_prototype_members) :
  componentKey_of r m = componentKey_of r "A"
  /\ componentKey_of r m = key_of_option (resolveKey r m)
  /\ (forall a, exists_nonempty (variant r "A") a -> componentKey_of r m = KeyString a)
  /\ (forall b, m <> "B" ->
        componentKey_of (set_variant "B" b r) m = componentKey_of r m)
  /\ (forall k h, m <> "" -> resolveKey r m = Some k ->
        handle (insert_icon_msg r (Some m)) h
        = handle (insert_icon_msg (set_variant m k r) (Some m)) h).
Proof.
  assert (HA : resolveKey r m = resolveKey r "A").
  { rewrite !resolveKey_unfold, Hm. cbn [truthy_str].
    destruct (truthy_str (variant r "A")); reflexivity. }
  pose proof (componentKey_of_own r m Hown) as Hkey.
  split; [| split; [exact Hkey | split; [| split]]].
  - rewrite Hkey, HA. symmetry. apply componentKey_of_own, light_not_inherited.
  - intros a Ha. rewrite Hkey, HA.
    replace (resolveKey r "A") with (Some a); [reflexivity |].
    eapply resolution_spec_functional; [| apply resolveKey_meets_spec].
    now apply spec_requested.
  - intros b HmB. rewrite Hkey, (componentKey_of_own _ m Hown). f_equal.
    rewrite !resolveKey_unfold.
    rewrite !variant_set_variant_ne by congruence. reflexivity.
  - intros k h Hne Hk. apply insert_icon_same_key; try reflexivity.
    assert (Hmode : mode_or_A (Some m) = m).
    { unfold mode_or_A. cbn [truthy_str].
      destruct (String.eqb_spec m ""); [contradiction | reflexivity]. }
    rewrite Hmode, Hk. symmetry.
    rewrite resolveKey_unfold, variant_set_variant_eq.
    now rewrite (truthy_resolved _ _ _ Hk).
Qed.

Lemma third_tag_not_inherited : "C" ∉ Object_prototype_members.
Proof.
  unfold Object_prototype_members. intros Hin.
  repeat (apply elem_of_cons in Hin as [Hin | Hin]; [discriminate |]).
  now apply elem_of_nil in Hin.
Qed.

Lemma fallback_to_light_witness :
  componentKey_of
    (sample_icon "pin" (Some "legacy") (Some {[ "A" := "light"; "B" := "dark" ]})) "C"
  = KeyString "light".
Proof.
  assert (Hm : variant (sample_icon "pin" (Some "legacy")
                          (Some {[ "A" := "light"; "B" := "dark" ]})) "C" = None)
    by (vm_compute; reflexivity).
  destruct (fallback_to_light _ "C" Hm third_tag_not_inherited) as (HA & _).
  rewrite HA. vm_compute. reflexivity.
Defined.

(** X13. The requested mode matters only through a truthy read under the
    requested tag: two tags under neither of which [variant_keys] yields a
    truthy value (a non-empty own entry or an inherited member) resolve
    alike.  So a record without [variant_keys] resolves the same in every
    mode. *)
Theorem mode_matters_only_when_present (r : IconData) (m m' : string)
    (Hm : truthy_key (read_variant r m) = false)
    (Hm' : truthy_key (read_variant r m') = false) :
  componentKey_of r m = componentKey_of r m'.
Proof. unfold componentKey_of. rewrite Hm, Hm'. reflexivity. Qed.

Lemma mode_matters_only_when_present_witness :
  componentKey_of (sample_icon "pin" (Some "k1") None) "B"
  = componentKey_of (sample_icon "pin" (Some "k1") None) "constructor".
Proof.
  apply mode_matters_only_when_present; reflexivity.
Defined.
